(** * zabbix_webcheck: the web-check reconciliation module

    A shallow embedding of [monitoring/zabbix_webcheck.py].  Python values
    are a small universe of JSON-like data, dictionaries are finite maps
    whose iteration order is a parameter, [module.exit_json] /
    [module.fail_json] end the run with a report, and the Zabbix API
    client is an arbitrary state machine answering calls. *)

From stdpp Require Import base option list sorting gmap strings fin_maps.
From Stdlib Require Import ZArith Lia.

#[local] Set Warnings "-register-all,-clear-no-such-hyp".
#[local] Open Scope string_scope.
#[local] Open Scope list_scope.

(** ** Python values *)

Inductive value :=
  | VNone
  | VBool (b : bool)
  | VInt (z : Z)
  | VStr (s : string)
  | VList (l : list value)
  | VDict (d : gmap string value).

(** A Python dictionary with string keys. *)
Abbreviation dict := (gmap string value).

(** Exceptions deriving from [Exception]; [APIError] stands for whatever
    the [zabbix_api] client raises, with its payload. *)
Inductive exn :=
  | KeyError (k : string)
  | IndexError
  | TypeError
  | APIError (e : value).

(** *** Reports of [exit_json] and [fail_json]

    The message texts of the module, named after the literal they stand
    for, with the [%s] arguments kept apart from the template. *)
Inductive template :=
  | Host_not_found                    (* Host not found: %s *)
  | Failed_to_get_the_host_id         (* Failed to get the host %s id: %s. *)
  | Failed_to_get_the_application_id  (* Failed to get the application '%s' id: %s. *)
  | Failed_to_get_WebCheck            (* Failed to get WebCheck %s: %s *)
  | Step_name_required                (* The "name" property in scenario steps is required and not null. *)
  | Step_url_required                 (* The "url" property in scenario steps is required and not null. *)
  | Step_no_required                  (* The "no" property in scenario steps is required and not null. *)
  | Steps_required                    (* The "steps" property in scenario is required and not null. *)
  | Failed_to_create_Application      (* Failed to create Application '%s': %s *)
  | Successfully_added_WebCheck       (* Successfully added WebCheck %s  *)
  | Failed_to_create_WebCheck         (* Failed to create WebCheck %s: %s *)
  | Successfully_updated_WebCheck     (* Successfully updated WebCheck %s  *)
  | Failed_to_updated_WebCheck        (* Failed to updated WebCheck %s: %s *)
  | Successfully_deleted_WebCheck     (* Successfully deleted WebCheck %s  *)
  | Failed_to_delete_WebCheck         (* Failed to delete WebCheck %s: %s *)
  | Missing_zabbix_api                (* Missing requried zabbix-api module ... *)
  | Web_check_name_required           (* The "web_check_name" property is required and not null. *)
  | Failed_to_connect                 (* Failed to connect to Zabbix server: %s *)
  | Host_name_required                (* The "host_name" property is required. *)
  | WebCheck_does_not_exist           (* WebCheck %s does not exist *)
  | Application_name_required.        (* The "application_name" property is required. *)

Inductive fmt_arg :=
  | FVal (v : value)
  | FExn (e : exn).

Record text := Text { text_template : template; text_args : list fmt_arg }.

(** [exit_json(changed=c, key=text)] and [fail_json(msg=text)]. *)
Inductive report :=
  | exit_report (changed : bool) (extra : option (string * text))
  | fail_report (msg : text).

(** ** Outcomes of a computation

    [Exit] is the [SystemExit] raised by [exit_json] and [fail_json]: it is
    not an [Exception], so no [except Exception] clause catches it. *)
Inductive outcome (A : Type) :=
  | Ret (a : A)
  | Exit (r : report)
  | Raise (e : exn).
Arguments Ret {A} a.
Arguments Exit {A} r.
Arguments Raise {A} e.

#[global] Instance outcome_ret : MRet outcome := fun A a => Ret a.
#[global] Instance outcome_bind : MBind outcome := fun A B f m =>
  match m with
  | Ret a => f a
  | Exit r => Exit r
  | Raise e => Raise e
  end.

Definition exit_json {A} (changed : bool) (extra : option (string * text)) : outcome A :=
  Exit (exit_report changed extra).
Definition fail_json {A} (t : template) (args : list fmt_arg) : outcome A :=
  Exit (fail_report (Text t args)).

(** ** The order of a dictionary

    Python leaves the order in which a dictionary hands out its keys to
    the implementation: it is the order of its hash table, which a finite
    map does not record.  The embedding takes this order as given:
    [keys_in_order] is any enumeration of the keys of each dictionary, and
    the properties of the module are proved for all of them. *)
Class DictOrder := {
  keys_in_order : dict → list string;
  keys_in_order_perm d : keys_in_order d ≡ₚ (map_to_list d).*1
}.

Lemma filter_all {A} (P : A → Prop) `{∀ x, Decision (P x)} (l : list A) :
  Forall P l → filter P l = l.
Proof.
  induction 1 as [|x l Hx _ IH]; [done|]. by rewrite filter_cons_True, IH.
Qed.

Lemma filter_none {A} (P : A → Prop) `{∀ x, Decision (P x)} (l : list A) :
  Forall (λ x, ¬ P x) l → filter P l = [].
Proof.
  induction 1 as [|x l Hx _ IH]; [done|]. by rewrite filter_cons_False.
Qed.

(** Whatever the order in which a dictionary hands out its keys, some
    [DictOrder] gives it: what is proved for every [DictOrder] holds for
    the order the dictionary has in a run. *)
Lemma dict_order_any (d : dict) (ks : list string) :
  ks ≡ₚ (map_to_list d).*1 → ∃ O : DictOrder, @keys_in_order O d = ks.
Proof.
  intros Hks.
  assert (NoDup ks) as Hnd by (rewrite Hks; apply NoDup_fst_map_to_list).
  set (order := λ d' : dict,
         filter (λ k, k ∈ (map_to_list d').*1) ks
         ++ filter (λ k, k ∉ ks) (map_to_list d').*1).
  assert (∀ d', order d' ≡ₚ (map_to_list d').*1) as Hperm.
  { intros d'. apply NoDup_Permutation.
    - apply NoDup_app. split_and!.
      + by apply NoDup_filter.
      + intros k Hk1 Hk2. apply list_elem_of_filter in Hk1 as [_ Hk1].
        by apply list_elem_of_filter in Hk2 as [Hk2 _].
      + apply NoDup_filter, NoDup_fst_map_to_list.
    - apply NoDup_fst_map_to_list.
    - intros k. unfold order. rewrite elem_of_app, !list_elem_of_filter.
      destruct (decide (k ∈ ks)); naive_solver. }
  exists {| keys_in_order := order; keys_in_order_perm := Hperm |}. simpl. unfold order.
  rewrite filter_all, filter_none, app_nil_r; [done| |].
  - apply Forall_forall. intros k Hk Hn. apply Hn. by rewrite Hks.
  - apply Forall_forall. intros k Hk. by rewrite <-Hks.
Qed.

(** ** The Python operations the module uses *)
Module Py.

(** [bool(v)] *)
Definition truthy (v : value) : bool :=
  match v with
  | VNone => false
  | VBool b => b
  | VInt z => negb (z =? 0)%Z
  | VStr s => negb (String.eqb s "")
  | VList l => negb (Nat.eqb (length l) 0)
  | VDict d => negb (Nat.eqb (size d) 0)
  end.

Definition is_none (v : value) : bool :=
  match v with VNone => true | _ => false end.

(** [type(v) is list], [type(v) is dict] *)
Definition is_list (v : value) : bool :=
  match v with VList _ => true | _ => false end.
Definition is_dict (v : value) : bool :=
  match v with VDict _ => true | _ => false end.

(** [len(v)] *)
Definition len (v : value) : outcome nat :=
  match v with
  | VStr s => Ret (String.length s)
  | VList l => Ret (length l)
  | VDict d => Ret (size d)
  | _ => Raise TypeError
  end.

(** Booleans are integers in Python. *)
Definition as_int (v : value) : option Z :=
  match v with
  | VBool b => Some (Z.b2z b)
  | VInt z => Some z
  | _ => None
  end.

(** [a == b] *)
Fixpoint eq (a b : value) {struct a} : bool :=
  match a, b with
  | VNone, VNone => true
  | VBool x, _ => match as_int b with Some y => (Z.b2z x =? y)%Z | None => false end
  | VInt x, _ => match as_int b with Some y => (x =? y)%Z | None => false end
  | VStr s, VStr t => String.eqb s t
  | VList l, VList m =>
      (fix eq_list (l m : list value) {struct l} : bool :=
         match l, m with
         | [], [] => true
         | x :: l', y :: m' => eq x y && eq_list l' m'
         | _, _ => false
         end) l m
  | VDict d, VDict e =>
      Nat.eqb (size d) (size e)
      && map_fold (fun k x acc =>
                     acc && match e !! k with Some y => eq x y | None => false end)
                  true d
  | _, _ => false
  end.

(** [v[key]] for a string key *)
Definition getitem (v : value) (key : string) : outcome value :=
  match v with
  | VDict d => match d !! key with Some x => Ret x | None => Raise (KeyError key) end
  | _ => Raise TypeError
  end.

(** [v[0]] *)
Definition first (v : value) : outcome value :=
  match v with
  | VList (x :: _) => Ret x
  | VList [] => Raise IndexError
  | VStr (String c _) => Ret (VStr (String c ""))
  | VStr "" => Raise IndexError
  | VDict _ => Raise (KeyError "0")
  | _ => Raise TypeError
  end.

Definition is_substring (key s : string) : bool :=
  match String.index 0 key s with Some _ => true | None => false end.

(** [key in v] for a string key *)
Definition contains (key : string) (v : value) : outcome bool :=
  match v with
  | VDict d => Ret (bool_decide (is_Some (d !! key)))
  | VList l => Ret (existsb (eq (VStr key)) l)
  | VStr s => Ret (is_substring key s)
  | _ => Raise TypeError
  end.

Fixpoint chars (s : string) : list value :=
  match s with
  | "" => []
  | String c s' => VStr (String c "") :: chars s'
  end.

Section Order.

Context {dict_order : DictOrder}.

(** [d.values()], in the iteration order of the dictionary. *)
Definition values (d : dict) : list value :=
  (fun k => default VNone (d !! k)) <$> keys_in_order d.

(** The elements a [for] loop over [v] visits: the keys of a dictionary,
    in its iteration order. *)
Definition iter (v : value) : outcome (list value) :=
  match v with
  | VList l => Ret l
  | VDict d => Ret (VStr <$> keys_in_order d)
  | VStr s => Ret (chars s)
  | _ => Raise TypeError
  end.

End Order.

End Py.

(** ** The calls on the remote client *)

(** The API methods the module calls on [self._zapi]. *)
Inductive method :=
  | user_login
  | host_get
  | application_get
  | application_create
  | webcheck_get
  | webcheck_create
  | webcheck_update
  | webcheck_delete.

#[global] Instance method_eq_dec : EqDecision method.
Proof. solve_decision. Defined.

(** What a call on the client gives back. *)
Inductive reply :=
  | Returns (v : value)
  | Throws (e : value).

Abbreviation call := (method * value)%type.

(** The methods that change the remote system. *)
Definition mutating (m : method) : bool :=
  match m with
  | application_create | webcheck_create | webcheck_update | webcheck_delete => true
  | _ => false
  end.

(** The parameters [AnsibleModule] hands to [main]. *)
Record params := Params {
  server_url : value;
  login_user : value;
  login_password : value;
  state : value;
  timeout : value;
  web_check : value
}.

(** * The module

    Everything from here to the examples holds for every iteration order
    of the dictionaries. *)
Section Embedding.

Context {dict_order : DictOrder}.

(** ** The pure part of [class WebCheck] *)

Definition web_scenario_optional_properties_list : list string :=
  ["agent"; "authentication"; "delay"; "http_password"; "http_user"; "macros"; "status"].
Definition scenario_step_optional_properties_list : list string :=
  ["posts"; "required"; "status_codes"; "timeout"].

Definition get_value_by_key (dict_obj : value) (key : string) : outcome value :=
  b ← Py.contains key dict_obj;
  if b : bool then Py.getitem dict_obj key else mret VNone.

(** The loop that gathers the optional properties that are not [None]. *)
Fixpoint optional_properties (obj : value) (keys : list string) (acc : dict)
  : outcome dict :=
  match keys with
  | [] => mret acc
  | key :: keys' =>
      v ← get_value_by_key obj key;
      optional_properties obj keys' (if Py.is_none v then acc else <[key:=v]> acc)
  end.

(** [if key in step and step[key]: x = step[key] else: fail_json(...)] *)
Definition required_property (step : value) (key : string) (t : template)
  : outcome value :=
  b ← Py.contains key step;
  if b : bool then
    v ← Py.getitem step key;
    if Py.truthy v then mret v else fail_json t []
  else fail_json t [].

(** The body of the loop of [get_steps], for one entry. *)
Definition get_step (web_check_step : value) : outcome dict :=
  name ← required_property web_check_step "name" Step_name_required;
  url ← required_property web_check_step "url" Step_url_required;
  no ← required_property web_check_step "number" Step_no_required;
  optional_step_properties ←
    optional_properties web_check_step scenario_step_optional_properties_list ∅;
  let step : dict := <["name":=name]> (<["url":=url]> (<["no":=no]> ∅)) in
  mret (optional_step_properties ∪ step).

Fixpoint get_steps_loop (items : list value) (steps : list dict)
  : outcome (list dict) :=
  match items with
  | [] => mret steps
  | web_check_step :: items' =>
      step ← get_step web_check_step;
      get_steps_loop items' (steps ++ [step])
  end.

Definition get_steps (web_check_steps : value) : outcome (list dict) :=
  if Py.truthy web_check_steps then
    items ← Py.iter web_check_steps;
    get_steps_loop items []
  else fail_json Steps_required [].

(** The inner loop of [get_replace_steps]: scan the old steps for the first
    one with the url of [new_webcheck_step].  [Some step] is the step
    appended when the loop breaks with [flag = True]; [None] is the loop
    running to its end with [flag = False]. *)
Fixpoint scan_old_steps (new_webcheck_step : dict) (old_webcheck_steps : list value)
    (httptestid : value) : outcome (option dict) :=
  match old_webcheck_steps with
  | [] => mret None
  | old_webcheck_step :: rest =>
      new_webcheck_step_url ← Py.getitem (VDict new_webcheck_step) "url";
      old_webcheck_step_url ← Py.getitem old_webcheck_step "url";
      if Py.eq new_webcheck_step_url old_webcheck_step_url then
        (* update *)
        webstepid ← Py.getitem old_webcheck_step "webstepid";
        mret (Some (<["httptestid":=httptestid]>
                      (<["webstepid":=webstepid]> new_webcheck_step)))
      else scan_old_steps new_webcheck_step rest httptestid
  end.

Fixpoint replace_steps_loop (old_webcheck_steps : value) (new_webcheck_steps : list dict)
    (httptestid : value) (relace_webcheck_steps : list dict) : outcome (list dict) :=
  match new_webcheck_steps with
  | [] => mret relace_webcheck_steps
  | new_webcheck_step :: rest =>
      olds ← Py.iter old_webcheck_steps;
      found ← scan_old_steps new_webcheck_step olds httptestid;
      let step :=
        match found with
        | Some updated => updated
        | None => (* add *) <["httptestid":=httptestid]> new_webcheck_step
        end in
      replace_steps_loop old_webcheck_steps rest httptestid
        (relace_webcheck_steps ++ [step])
  end.

Definition get_replace_steps (old_webcheck_steps : value)
    (new_webcheck_steps : list dict) (httptestid : value) : outcome (list dict) :=
  replace_steps_loop old_webcheck_steps new_webcheck_steps httptestid [].

(** On create the caller leaves [web_check_obj] and [httptestid] at their
    default [None]. *)
Definition get_web_check_params (web_check_name host_id application_id
    web_check_steps : value) (optional_scenario_values : dict)
    (web_check_obj httptestid : value) : outcome dict :=
  steps ← get_steps web_check_steps;
  steps ←
    (if Py.truthy httptestid then
       old ← Py.getitem web_check_obj "steps";
       if Py.truthy old then
         let old_steps :=
           match old with
           | VList _ => old
           | VDict d => VList (Py.values d)
           | _ => VNone
           end in
         get_replace_steps old_steps steps httptestid
       else mret steps
     else mret steps);
  let web_check_params : dict :=
    <["name":=web_check_name]> (<["applicationid":=application_id]>
    (<["hostid":=host_id]> (<["steps":=VList (VDict <$> steps)]> ∅))) in
  let web_check_params :=
    if Py.truthy httptestid
    then <["httptestid":=httptestid]> web_check_params
    else web_check_params in
  mret (optional_scenario_values ∪ web_check_params).

(** ** The remote client and the stateful part of the module *)

Section WebCheck.

(** The remote system: a state [W] and its answer to every call. *)
Context {W : Type}.
Variable zapi : method -> value -> W -> reply * W.
(** [module.check_mode] and the module-level flag [HAS_ZABBIX_API]. *)
Variable check_mode : bool.
Variable HAS_ZABBIX_API : bool.

(** The state of a run: the remote system and the calls issued so far. *)
Record machine := Machine { remote : W; calls : list call }.

Definition M (A : Type) : Type := machine -> outcome A * machine.

#[global] Instance M_ret : MRet M := fun A a s => (Ret a, s).
#[global] Instance M_bind : MBind M := fun A B f m s =>
  match m s with
  | (Ret a, s') => f a s'
  | (Exit r, s') => (Exit r, s')
  | (Raise e, s') => (Raise e, s')
  end.

(** A pure computation inside a run. *)
Definition lift {A} (o : outcome A) : M A := fun s => (o, s).

(** [try: body  except Exception, e: handler e] *)
Definition try_except {A} (body : M A) (handler : exn -> M A) : M A := fun s =>
  match body s with
  | (Raise e, s') => handler e s'
  | r => r
  end.

(** [self._zapi.<method>(arg)] *)
Definition zapi_call (m : method) (arg : value) : M value := fun s =>
  let '(r, w) := zapi m arg (remote s) in
  let s' := Machine w (calls s ++ [(m, arg)]) in
  match r with
  | Returns v => (Ret v, s')
  | Throws e => (Raise (APIError e), s')
  end.

Definition extend : value := VStr "extend".

(* get host id by host name *)
Definition get_host_id (host_name : value) : M value :=
  try_except
    (host_list ← zapi_call host_get
       (VDict (<["output":=extend]>
               (<["filter":=VDict (<["host":=host_name]> ∅)]> ∅)));
     n ← lift (Py.len host_list);
     if (n <? 1)%nat then
       lift (fail_json Host_not_found [FVal host_name])
     else
       host ← lift (Py.first host_list);
       lift (Py.getitem host "hostid"))
    (fun e => lift (fail_json Failed_to_get_the_host_id [FVal host_name; FExn e])).

(* create application by application name, host id *)
Definition create_application (hostId applicationName : value) : M value :=
  try_except
    ((if check_mode then lift (exit_json true None) else mret ());;
     zapi_call application_create
       (VDict (<["hostid":=hostId]> (<["name":=applicationName]> ∅))))
    (fun e => lift (fail_json Failed_to_create_Application [FVal applicationName; FExn e])).

(* get application id by application name, host id *)
Definition get_application_id (host_id application_name : value) : M value :=
  try_except
    (application_list ← zapi_call application_get
       (VDict (<["output":=extend]>
               (<["filter":=VDict (<["hostid":=host_id]>
                                   (<["name":=application_name]> ∅))]> ∅)));
     n ← lift (Py.len application_list);
     if (n <? 1)%nat then
       applicationids ← create_application host_id application_name;
       k ← lift (Py.len applicationids);
       if (0 <? k)%nat then
         ids ← lift (Py.getitem applicationids "applicationids");
         lift (Py.first ids)
       else mret VNone
     else
       application ← lift (Py.first application_list);
       lift (Py.getitem application "applicationid"))
    (fun e => lift (fail_json Failed_to_get_the_application_id
                      [FVal application_name; FExn e])).

(* get webcheck *)
Definition get_web_check (web_check_name host_id : value) : M value :=
  try_except
    (web_check_list ← zapi_call webcheck_get
       (VDict (<["output":=extend]> (<["selectSteps":=extend]>
               (<["hostids":=VList [host_id]]>
               (<["filter":=VDict (<["name":=web_check_name]> ∅)]> ∅)))));
     n ← lift (Py.len web_check_list);
     if (0 <? n)%nat then lift (Py.first web_check_list) else mret VNone)
    (fun e => lift (fail_json Failed_to_get_WebCheck [FVal web_check_name; FExn e])).

(* create web check *)
Definition create_web_check (web_check_name host_id application_id
    web_check_steps : value) (scenario_optional_properties : dict) : M unit :=
  web_check_params ← lift (get_web_check_params web_check_name host_id
                             application_id web_check_steps
                             scenario_optional_properties VNone VNone);
  try_except
    ((if check_mode then lift (exit_json true None) else mret ());;
     zapi_call webcheck_create (VDict web_check_params);;
     lift (exit_json true
             (Some ("result", Text Successfully_added_WebCheck [FVal web_check_name]))))
    (fun e => lift (fail_json Failed_to_create_WebCheck [FVal web_check_name; FExn e])).

(* update web check *)
Definition update_web_check (web_check_obj web_check_name host_id application_id
    web_check_steps : value) (scenario_optional_properties : dict) : M unit :=
  httptestid ← lift (Py.getitem web_check_obj "httptestid");
  web_check_params ← lift (get_web_check_params web_check_name host_id
                             application_id web_check_steps
                             scenario_optional_properties web_check_obj httptestid);
  try_except
    ((if check_mode then lift (exit_json true None) else mret ());;
     zapi_call webcheck_update (VDict web_check_params);;
     lift (exit_json true
             (Some ("result", Text Successfully_updated_WebCheck
                                [FVal (VDict web_check_params)]))))
    (fun e => lift (fail_json Failed_to_updated_WebCheck
                      [FVal (VDict web_check_params); FExn e])).

(* delete web check *)
Definition delete_web_check (webCheckObj : value) : M unit :=
  webCheckId ← lift (Py.getitem webCheckObj "httptestid");
  webCheckName ← lift (Py.getitem webCheckObj "name");
  try_except
    ((if check_mode then lift (exit_json true None) else mret ());;
     zapi_call webcheck_delete (VList [webCheckId]);;
     lift (exit_json true
             (Some ("result", Text Successfully_deleted_WebCheck [FVal webCheckName]))))
    (fun e => lift (fail_json Failed_to_delete_WebCheck [FVal webCheckName; FExn e])).

(** The loop of [main] over [_web_scenario_optional_properties_list] is
    the loop of [get_steps] over the step properties: [optional_properties]. *)
Definition main (p : params) : M unit :=
  (if HAS_ZABBIX_API then mret () else lift (fail_json Missing_zabbix_api []));;
  b ← lift (Py.contains "web_check_name" (web_check p));
  web_check_name ←
    (if b : bool then lift (Py.getitem (web_check p) "web_check_name")
     else lift (fail_json Web_check_name_required []));
  (* login to zabbix *)
  try_except
    (zapi_call user_login (VList [login_user p; login_password p]))
    (fun e => lift (fail_json Failed_to_connect [FExn e]));;
  host_name ← lift (get_value_by_key (web_check p) "host_name");
  (if Py.truthy host_name then mret ()
   else lift (fail_json Host_name_required []));;
  host_id ← get_host_id host_name;
  (* get webcheck object by name *)
  web_check_obj ← get_web_check web_check_name host_id;
  if Py.eq (state p) (VStr "absent") then
    if Py.truthy web_check_obj then
      (* delete a webcheck *)
      delete_web_check web_check_obj
    else
      lift (exit_json false
              (Some ("msg", Text WebCheck_does_not_exist [FVal web_check_name])))
  else
    application_name ← lift (get_value_by_key (web_check p) "application_name");
    (if Py.truthy application_name then mret ()
     else lift (fail_json Application_name_required []));;
    host_id ← get_host_id host_name;
    application_id ← get_application_id host_id application_name;
    web_check_steps ← lift (get_value_by_key (web_check p) "steps");
    scenario_optional_properties ←
      lift (optional_properties (web_check p) web_scenario_optional_properties_list ∅);
    if Py.truthy web_check_obj then
      (* update webcheck *)
      update_web_check web_check_obj web_check_name host_id application_id
        web_check_steps scenario_optional_properties
    else
      (* create webcheck *)
      create_web_check web_check_name host_id application_id
        web_check_steps scenario_optional_properties.

(** Running the module from a remote state with an empty call log. *)
Definition run (p : params) (w : W) : outcome unit * machine :=
  main p (Machine w []).

End WebCheck.

(** * Properties *)

(** ** The step normalizer *)

(** The value of key [k] carried over from an entry: a [None] value counts
    as no value. *)
Definition copied (e : dict) (k : string) : option value :=
  v ← e !! k; if Py.is_none v then None else Some v.

(** A required key that is not there, or whose value is falsy. *)
Definition missing (e : dict) (k : string) : bool :=
  match e !! k with
  | Some v => negb (Py.truthy v)
  | None => true
  end.

Definition invalid_entry (e : dict) : Prop :=
  missing e "name" = true ∨ missing e "url" = true ∨ missing e "number" = true.

Definition valid_entry (e : dict) : Prop :=
  missing e "name" = false ∧ missing e "url" = false ∧ missing e "number" = false.

(** [s] is the normalized step of the entry [e]. *)
Record normalized (e s : dict) : Prop := {
  norm_name : s !! "name" = e !! "name";
  norm_url : s !! "url" = e !! "url";
  norm_no : s !! "no" = e !! "number";
  norm_optional k :
    k ∈ scenario_step_optional_properties_list → s !! k = copied e k;
  norm_other k :
    k ∉ ["name"; "url"; "no"] ++ scenario_step_optional_properties_list →
    s !! k = None
}.

(** The failures of the validation in [get_steps]. *)
Definition validation_error {A} (o : outcome A) : Prop :=
  ∃ t, o = Exit (fail_report (Text t []))
       ∧ t ∈ [Step_name_required; Step_url_required; Step_no_required; Steps_required].

Lemma invalid_or_valid e : {invalid_entry e} + {valid_entry e}.
Proof.
  unfold invalid_entry, valid_entry.
  destruct (missing e "name"), (missing e "url"), (missing e "number");
    (by right) || (left; auto).
Defined.

Lemma valid_not_invalid e : valid_entry e → ¬ invalid_entry e.
Proof. intros (H1 & H2 & H3) [H | [H | H]]; congruence. Qed.

Lemma get_value_by_key_dict (e : dict) k :
  get_value_by_key (VDict e) k = Ret (default VNone (e !! k)).
Proof.
  unfold get_value_by_key; simpl.
  by destruct (e !! k) as [v|] eqn:E; simpl; rewrite ?E.
Qed.

Lemma required_property_dict (e : dict) k t :
  required_property (VDict e) k t =
  match e !! k with
  | Some v => if missing e k then fail_json t [] else Ret v
  | None => fail_json t []
  end.
Proof.
  unfold required_property, missing; simpl.
  destruct (e !! k) as [v|] eqn:E; simpl; rewrite ?E; simpl; [|done].
  by destruct (Py.truthy v).
Qed.

Lemma optional_properties_dict (e : dict) keys acc :
  ∃ r, optional_properties (VDict e) keys acc = Ret r
       ∧ ∀ k, r !! k = if bool_decide (k ∈ keys)
                       then match copied e k with Some v => Some v | None => acc !! k end
                       else acc !! k.
Proof.
  revert acc. induction keys as [|key keys IH]; intros acc.
  - exists acc. split; [done|]. intros k. by rewrite bool_decide_false by set_solver.
  - simpl. rewrite get_value_by_key_dict. simpl.
    destruct (IH (if Py.is_none (default VNone (e !! key)) then acc
                  else <[key:=default VNone (e !! key)]> acc)) as (r & Hr & Hl).
    exists r. split; [done|]. intros k. rewrite Hl. clear Hl Hr IH.
    destruct (decide (k = key)) as [->|Hne].
    + rewrite (bool_decide_true (key ∈ key :: keys)) by set_solver.
      unfold copied. destruct (e !! key) as [v|] eqn:E; simpl.
      * destruct (Py.is_none v) eqn:N; simpl.
        -- by case_bool_decide.
        -- rewrite lookup_insert_eq. by case_bool_decide.
      * by case_bool_decide.
    + assert ((if Py.is_none (default VNone (e !! key)) then acc
               else <[key:=default VNone (e !! key)]> acc) !! k = acc !! k) as ->.
      { destruct (Py.is_none _); [done|]. by rewrite lookup_insert_ne. }
      repeat case_bool_decide; set_solver.
Qed.

#[local] Arguments optional_properties : simpl never.

Lemma get_step_invalid e :
  invalid_entry e → validation_error (get_step (VDict e)).
Proof.
  unfold invalid_entry, get_step, validation_error. intros Hinv.
  rewrite !required_property_dict. unfold missing, fail_json in *.
  destruct (e !! "name") as [n|]; simpl; [destruct (Py.truthy n); simpl|];
    try (eexists; split; [reflexivity|set_solver]).
  destruct (e !! "url") as [u|]; simpl; [destruct (Py.truthy u); simpl|];
    try (eexists; split; [reflexivity|set_solver]).
  destruct (e !! "number") as [m|]; simpl; [destruct (Py.truthy m); simpl|];
    try (eexists; split; [reflexivity|set_solver]).
  simpl in Hinv. naive_solver.
Qed.

Lemma get_step_valid e :
  valid_entry e → ∃ s, get_step (VDict e) = Ret s ∧ normalized e s.
Proof.
  intros (Hn & Hu & Hm). unfold get_step.
  rewrite !required_property_dict, Hn, Hu, Hm.
  unfold missing in Hn, Hu, Hm.
  destruct (e !! "name") as [n|] eqn:En; [|done].
  destruct (e !! "url") as [u|] eqn:Eu; [|done].
  destruct (e !! "number") as [m|] eqn:Em; [|done]. simpl.
  destruct (optional_properties_dict e scenario_step_optional_properties_list ∅)
    as (r & -> & Hr). simpl.
  eexists; split; [reflexivity|].
  assert (∀ k, k ∉ scenario_step_optional_properties_list → r !! k = None) as Hout.
  { intros k Hk. rewrite Hr. by rewrite bool_decide_false. }
  split.
  - rewrite lookup_union_r by (apply Hout; set_solver). by simplify_map_eq.
  - rewrite lookup_union_r by (apply Hout; set_solver). by simplify_map_eq.
  - rewrite lookup_union_r by (apply Hout; set_solver). by simplify_map_eq.
  - intros k Hk. rewrite lookup_union, Hr, bool_decide_true by done.
    rewrite lookup_empty.
    assert ((<["name":=n]> (<["url":=u]> (<["no":=m]> (∅ : dict)))) !! k = None) as ->.
    { unfold scenario_step_optional_properties_list in Hk.
      rewrite !lookup_insert_ne, lookup_empty by set_solver. done. }
    by destruct (copied e k).
  - intros k Hk. rewrite lookup_union, Hout by set_solver.
    rewrite !lookup_insert_ne, lookup_empty by set_solver. done.
Qed.

Lemma get_steps_loop_valid entries acc :
  Forall valid_entry entries →
  ∃ out, get_steps_loop (VDict <$> entries) acc = Ret (acc ++ out)
         ∧ Forall2 normalized entries out.
Proof.
  revert acc. induction entries as [|e entries IH]; intros acc Hall.
  - exists []. by rewrite app_nil_r.
  - inversion_clear Hall as [|? ? He Hrest]. rewrite fmap_cons. cbn [get_steps_loop].
    destruct (get_step_valid e He) as (s & -> & Hs). cbn [mbind outcome_bind].
    destruct (IH (acc ++ [s]) Hrest) as (out & -> & Hout).
    exists (s :: out). split; [by rewrite <-app_assoc|by constructor].
Qed.

Lemma get_steps_loop_invalid entries acc :
  Exists invalid_entry entries →
  validation_error (get_steps_loop (VDict <$> entries) acc).
Proof.
  revert acc. induction entries as [|e entries IH]; intros acc Hex.
  - inversion Hex.
  - rewrite fmap_cons. cbn [get_steps_loop].
    destruct (invalid_or_valid e) as [Hinv|Hval].
    + destruct (get_step_invalid e Hinv) as (t & -> & Ht). by exists t.
    + destruct (get_step_valid e Hval) as (s & -> & _). cbn [mbind outcome_bind].
      apply IH. inversion_clear Hex; [|done].
      by destruct (valid_not_invalid e).
Qed.

Lemma validation_error_not_ret {A} (a : A) : ¬ validation_error (Ret a).
Proof. by intros (t & ? & _). Qed.

Lemma get_steps_listed entries :
  get_steps (VList (VDict <$> entries)) =
  match entries with
  | [] => fail_json Steps_required []
  | _ => get_steps_loop (VDict <$> entries) []
  end.
Proof. by destruct entries. Qed.

Lemma entries_valid_or_invalid entries :
  Forall valid_entry entries ∨ Exists invalid_entry entries.
Proof.
  induction entries as [|e entries [IH|IH]]; [by left| |right; by right].
  destruct (invalid_or_valid e); [right; by left|left; by constructor].
Qed.

Lemma get_steps_fails entries :
  entries = [] ∨ Exists invalid_entry entries →
  validation_error (get_steps (VList (VDict <$> entries))).
Proof.
  intros [->|Hex].
  - exists Steps_required. split; [done|set_solver].
  - rewrite get_steps_listed. destruct entries; [inversion Hex|].
    by apply get_steps_loop_invalid.
Qed.

Lemma get_steps_returns entries :
  entries ≠ [] → Forall valid_entry entries →
  ∃ out, get_steps (VList (VDict <$> entries)) = Ret out
         ∧ Forall2 normalized entries out.
Proof.
  intros Hne Hall. rewrite get_steps_listed. destruct entries as [|e entries]; [done|].
  destruct (get_steps_loop_valid (e :: entries) [] Hall) as (out & Hout & Hn).
  by exists out.
Qed.

(** What a successful normalization tells about its input. *)
Lemma get_steps_ret_inv entries out :
  get_steps (VList (VDict <$> entries)) = Ret out →
  entries ≠ [] ∧ Forall valid_entry entries ∧ Forall2 normalized entries out.
Proof.
  intros Hret.
  assert (¬ (entries = [] ∨ Exists invalid_entry entries)) as Hok.
  { intros H. apply get_steps_fails in H. rewrite Hret in H.
    by apply validation_error_not_ret in H. }
  assert (entries ≠ []) as Hne by tauto.
  destruct (entries_valid_or_invalid entries) as [Hall|Hex]; [|tauto].
  destruct (get_steps_returns entries Hne Hall) as (out' & Hout & Hn).
  rewrite Hret in Hout. by simplify_eq.
Qed.

(** C3: the step normalizer fails with a validation error exactly when the
    raw step list is absent ([None]) or empty, or when some entry lacks a
    non-empty name, url or number; otherwise it returns one normalized
    step per entry, in input order, each optional property being the
    entry's own value when it has one and absent otherwise. *)
Theorem get_steps_validation :
  validation_error (get_steps VNone) ∧
  ∀ entries : list dict,
    (validation_error (get_steps (VList (VDict <$> entries)))
     ↔ entries = [] ∨ Exists invalid_entry entries) ∧
    (¬ (entries = [] ∨ Exists invalid_entry entries) →
     ∃ out, get_steps (VList (VDict <$> entries)) = Ret out
            ∧ Forall2 normalized entries out
            ∧ ∀ i s k v, out !! i = Some s → s !! k = Some v →
                k ∈ scenario_step_optional_properties_list →
                ∃ e, entries !! i = Some e ∧ e !! k = Some v).
Proof.
  split.
  { exists Steps_required. split; [done|set_solver]. }
  intros entries.
  assert (¬ (entries = [] ∨ Exists invalid_entry entries) →
          ∃ out, get_steps (VList (VDict <$> entries)) = Ret out
                 ∧ Forall2 normalized entries out) as Hgood.
  { intros Hok. apply get_steps_returns; [tauto|].
    destruct (entries_valid_or_invalid entries); tauto. }
  split; [split; [|apply get_steps_fails]|].
  - intros Hfail. destruct (entries_valid_or_invalid entries) as [Hall|Hex]; [|tauto].
    destruct entries as [|e entries]; [tauto|].
    destruct (get_steps_returns (e :: entries)) as (out & Hout & _); [done..|].
    rewrite Hout in Hfail. by apply validation_error_not_ret in Hfail.
  - intros Hok. destruct (Hgood Hok) as (out & Hout & Hn).
    exists out. split_and!; [done..|].
    intros i s k v Hi Hk Hopt.
    destruct (Forall2_lookup_r _ _ _ _ _ Hn Hi) as (e & He & Hes).
    exists e. split; [done|].
    rewrite (norm_optional _ _ Hes k Hopt) in Hk.
    unfold copied in Hk. destruct (e !! k) as [x|]; [|done]. simpl in Hk.
    by destruct (Py.is_none x); simplify_eq.
Qed.

(** C10: the presence tests of the normalizer are asymmetric.  A required
    property (name, url, number) that is present with a falsy value is
    rejected like a missing one, whereas an optional property that is
    present with any value other than [None], falsy ones such as [0] or
    the empty string included, is copied into the normalized step. *)
Theorem get_steps_asymmetric_presence :
  (∀ (entries : list dict) e k v,
     e ∈ entries → k ∈ ["name"; "url"; "number"] →
     e !! k = Some v → Py.truthy v = false →
     validation_error (get_steps (VList (VDict <$> entries))))
  ∧ (∀ (entries out : list dict) i e k v,
       get_steps (VList (VDict <$> entries)) = Ret out →
       entries !! i = Some e →
       k ∈ scenario_step_optional_properties_list →
       e !! k = Some v → Py.truthy v = false → v ≠ VNone →
       ∃ s, out !! i = Some s ∧ s !! k = Some v).
Proof.
  split.
  - intros entries e k v He Hk Hv Hf. apply get_steps_fails. right.
    apply Exists_exists. exists e. split; [done|].
    unfold invalid_entry, missing.
    assert (k = "name" ∨ k = "url" ∨ k = "number") as [-> | [-> | ->]] by set_solver;
      rewrite Hv, Hf; auto.
  - intros entries out i e k v Hret Hi Hk Hv _ Hnn.
    destruct (get_steps_ret_inv _ _ Hret) as (_ & _ & Hn).
    destruct (Forall2_lookup_l _ _ _ _ _ Hn Hi) as (s & Hs & Hes).
    exists s. split; [done|].
    rewrite (norm_optional _ _ Hes k Hk). unfold copied. rewrite Hv. simpl.
    by destruct v.
Qed.

(** ** The step reconciler *)

(** The url of a step, as the comparison of [get_replace_steps] reads it. *)
Definition url_of (s : dict) : value := default VNone (s !! "url").

(** The first existing step, in remote order, with the url [u]. *)
Definition first_match (u : value) (olds : list dict) : option dict :=
  find (fun o => Py.eq u (url_of o)) olds.

(** The reconciliation as the specification words it: a matched desired
    step takes the remote step identifier of its first match and the
    parent identifier, an unmatched one only the parent identifier. *)
Definition reconcile_step (olds : list dict) (webCheckId : value) (s : dict) : dict :=
  match first_match (url_of s) olds with
  | Some o => <["httptestid":=webCheckId]>
                (<["webstepid":=default VNone (o !! "webstepid")]> s)
  | None => <["httptestid":=webCheckId]> s
  end.

Definition reconcileSteps (existingSteps desiredSteps : list dict) (webCheckId : value)
  : list dict :=
  reconcile_step existingSteps webCheckId <$> desiredSteps.

(** An existing step as the remote system returns it: it has a url and a
    remote step identifier. *)
Definition remote_step (o : dict) : Prop :=
  is_Some (o !! "url") ∧ is_Some (o !! "webstepid").

(** A desired step on its way to the reconciler: it has a url and no
    remote step identifier yet. *)
Definition desired_step (s : dict) : Prop :=
  is_Some (s !! "url") ∧ s !! "webstepid" = None.

Lemma normalized_desired e s :
  valid_entry e → normalized e s → desired_step s.
Proof.
  intros (_ & Hu & _) Hn. split.
  - rewrite (norm_url _ _ Hn). unfold missing in Hu.
    by destruct (e !! "url").
  - apply (norm_other _ _ Hn). unfold scenario_step_optional_properties_list.
    set_solver.
Qed.

Lemma normalized_no_parent e s : normalized e s → s !! "httptestid" = None.
Proof.
  intros Hn. apply (norm_other _ _ Hn).
  unfold scenario_step_optional_properties_list. set_solver.
Qed.

Lemma scan_old_steps_spec (s : dict) (olds : list dict) id :
  is_Some (s !! "url") → Forall remote_step olds →
  scan_old_steps s (VDict <$> olds) id =
  Ret (match first_match (url_of s) olds with
       | Some o => Some (<["httptestid":=id]>
                           (<["webstepid":=default VNone (o !! "webstepid")]> s))
       | None => None
       end).
Proof.
  intros [u Hu] Holds. unfold first_match, url_of. rewrite Hu. simpl.
  induction Holds as [|o olds [[ou Hou] [w Hw]] _ IH]; [done|].
  rewrite fmap_cons. cbn [scan_old_steps find]. simpl.
  rewrite Hu, Hou. simpl.
  destruct (Py.eq u ou); [|exact IH].
  by rewrite Hw.
Qed.

Lemma replace_steps_loop_spec (olds news : list dict) id acc :
  Forall remote_step olds → Forall desired_step news →
  replace_steps_loop (VList (VDict <$> olds)) news id acc =
  Ret (acc ++ reconcileSteps olds news id).
Proof.
  intros Holds Hnews. revert acc.
  induction Hnews as [|s news [Hu _] _ IH]; intros acc.
  - simpl. by rewrite app_nil_r.
  - cbn [replace_steps_loop Py.iter mbind outcome_bind].
    rewrite scan_old_steps_spec by done. cbn [mbind outcome_bind].
    rewrite IH. unfold reconcileSteps. rewrite fmap_cons, <-app_assoc.
    unfold reconcile_step at 2. by destruct (first_match _ _).
Qed.

Lemma first_match_url u olds o :
  first_match u olds = Some o → o ∈ olds ∧ Py.eq u (url_of o) = true.
Proof.
  unfold first_match. intros H. apply find_some in H as [Hin Heq].
  by rewrite <-list_elem_of_In in Hin.
Qed.


Lemma reconcile_step_url olds id s :
  url_of (reconcile_step olds id s) = url_of s.
Proof.
  unfold reconcile_step, url_of.
  destruct (first_match _ _); by simplify_map_eq.
Qed.

(** C1: the update reconciliation returns its steps in desired order.  A
    desired step whose url equals that of an existing step carries the
    remote step identifier of the first such existing step, in remote
    order, and the parent web-check identifier; a desired step without
    match carries only the parent identifier; and an existing step whose
    url is that of no desired step has no counterpart in the output. *)
Theorem get_replace_steps_reconciles (olds news : list dict) (id : value) :
  Forall remote_step olds → Forall desired_step news →
  ∃ out,
    get_replace_steps (VList (VDict <$> olds)) news id = Ret out
    ∧ out = reconcileSteps olds news id
    ∧ length out = length news
    ∧ (∀ i s, news !! i = Some s →
         ∃ s', out !! i = Some s'
           ∧ s' !! "httptestid" = Some id
           ∧ (∀ k, k ≠ "httptestid" → k ≠ "webstepid" → s' !! k = s !! k)
           ∧ match first_match (url_of s) olds with
             | Some o => s' !! "webstepid" = o !! "webstepid"
                         ∧ s' = <["httptestid":=id]>
                                  (<["webstepid":=default VNone (o !! "webstepid")]> s)
             | None => s' !! "webstepid" = None ∧ s' = <["httptestid":=id]> s
             end)
    ∧ (∀ o, o ∈ olds →
         (∀ s, s ∈ news → Py.eq (url_of s) (url_of o) = false) →
         ∀ s', s' ∈ out → Py.eq (url_of s') (url_of o) = false).
Proof.
  intros Holds Hnews. exists (reconcileSteps olds news id).
  unfold get_replace_steps. rewrite replace_steps_loop_spec by done.
  split_and!; [done|done|by unfold reconcileSteps; rewrite length_fmap| |].
  - intros i s Hi. exists (reconcile_step olds id s).
    unfold reconcileSteps. rewrite list_lookup_fmap, Hi. split; [done|].
    assert (desired_step s) as [_ Hnw].
    { rewrite Forall_forall in Hnews. apply Hnews.
      by eapply list_elem_of_lookup_2. }
    unfold reconcile_step.
    destruct (first_match (url_of s) olds) as [o|] eqn:Hm.
    + apply first_match_url in Hm as [Ho _].
      rewrite Forall_forall in Holds.
      destruct (Holds o Ho) as [_ [w Hw]].
      split_and!; [by simplify_map_eq| |by simplify_map_eq|done].
      intros k ? ?. by simplify_map_eq.
    + split_and!; [by simplify_map_eq| |by simplify_map_eq|done].
      intros k ? ?. by simplify_map_eq.
  - intros o Ho Hnone s' Hs'. unfold reconcileSteps in Hs'.
    apply list_elem_of_fmap in Hs' as (s & -> & Hs).
    rewrite reconcile_step_url. by apply Hnone.
Qed.

(** ** Assembling the parameters of an update *)




(** The parameters of an update whose existing web check has no steps. *)
Definition update_params_without_old_steps (web_check_name host_id application_id
    httptestid : value) (optional_scenario_values : dict) (steps : list dict) : dict :=
  optional_scenario_values ∪
  <["httptestid":=httptestid]> (<["name":=web_check_name]>
  (<["applicationid":=application_id]> (<["hostid":=host_id]>
  (<["steps":=VList (VDict <$> steps)]> ∅)))).

(** C6, as the code has it: when the existing web check carries no steps
    (its steps field is [None] or empty), the reconciler is not called.
    The outgoing steps are the normalized desired steps themselves, so
    each carries no remote step identifier, and no parent web-check
    identifier either: that identifier is attached to the outer parameter
    set only. *)
Theorem get_web_check_params_no_old_steps
    (web_check_name host_id application_id : value) (entries : list dict)
    (optional_scenario_values web_check_obj : dict) (old httptestid : value)
    (steps : list dict) :
  Py.truthy httptestid = true →
  web_check_obj !! "steps" = Some old → Py.truthy old = false →
  get_steps (VList (VDict <$> entries)) = Ret steps →
  get_web_check_params web_check_name host_id application_id
    (VList (VDict <$> entries)) optional_scenario_values
    (VDict web_check_obj) httptestid
  = Ret (update_params_without_old_steps web_check_name host_id application_id
           httptestid optional_scenario_values steps)
  ∧ Forall2 normalized entries steps
  ∧ ∀ s, s ∈ steps → s !! "webstepid" = None ∧ s !! "httptestid" = None.
Proof.
  intros Hid Hold Hfalsy Hsteps.
  destruct (get_steps_ret_inv _ _ Hsteps) as (_ & Hvalid & Hnorm).
  split_and!; [|done|].
  - unfold get_web_check_params. rewrite Hsteps. cbn [mbind outcome_bind].
    rewrite Hid. unfold Py.getitem. rewrite Hold. cbn [mbind outcome_bind].
    by rewrite Hfalsy.
  - intros s Hs. apply list_elem_of_lookup in Hs as [i Hi].
    destruct (Forall2_lookup_r _ _ _ _ _ Hnorm Hi) as (e & He & Hes).
    split; [|by eapply normalized_no_parent].
    eapply normalized_desired; [|done].
    rewrite Forall_forall in Hvalid. apply Hvalid.
    by eapply list_elem_of_lookup_2.
Qed.

(** ** Observing a run *)

(** The parameter sets the module sends with its calls. *)
Definition login_args (p : params) : value := VList [login_user p; login_password p].
Definition host_get_params (host_name : value) : value :=
  VDict (<["output":=extend]> (<["filter":=VDict (<["host":=host_name]> ∅)]> ∅)).
Definition application_get_params (host_id application_name : value) : value :=
  VDict (<["output":=extend]>
         (<["filter":=VDict (<["hostid":=host_id]> (<["name":=application_name]> ∅))]> ∅)).
Definition application_create_params (host_id application_name : value) : value :=
  VDict (<["hostid":=host_id]> (<["name":=application_name]> ∅)).
Definition webcheck_get_params (web_check_name host_id : value) : value :=
  VDict (<["output":=extend]> (<["selectSteps":=extend]>
         (<["hostids":=VList [host_id]]>
         (<["filter":=VDict (<["name":=web_check_name]> ∅)]> ∅)))).

(** The order in which a run may issue its calls: lookups and the login
    come first, then the creation of the application, then the one call
    that creates, updates or deletes the web check. *)
Definition stage (m : method) : nat :=
  match m with
  | application_create => 1%nat
  | webcheck_create | webcheck_update | webcheck_delete => 2%nat
  | _ => 0%nat
  end.

Definition follows (a b : method) : Prop :=
  (stage a < stage b)%nat ∨ (stage a = 0%nat ∧ stage b = 0%nat).

Definition in_order (ms : list method) : Prop := StronglySorted follows ms.

Section Runs.

Context {W : Type}.
Variable zapi : method -> value -> W -> reply * W.

(** The remote state after the calls [cs], issued from [w]. *)
Fixpoint replay (w : W) (cs : list call) : W :=
  match cs with
  | [] => w
  | (m, arg) :: cs' => replay (zapi m arg w).2 cs'
  end.

(** [m] issues its calls in order, each at a stage between [lo] and
    [hi], and the remote state changes through these calls only. *)
Definition staged {A} (lo hi : nat) (m : M (W:=W) A) : Prop :=
  ∀ s, ∃ cs,
    calls (m s).2 = calls s ++ cs
    ∧ remote (m s).2 = replay (remote s) cs
    ∧ in_order cs.*1
    ∧ Forall (λ c, (lo ≤ stage c.1 ≤ hi)%nat) cs.

(** [m] issues no call. *)
Definition silent {A} (m : M (W:=W) A) : Prop := ∀ s, (m s).2 = s.

(** Every report [m] ends the run with satisfies [P]. *)
Definition exits_with {A} (P : report → Prop) (m : M (W:=W) A) : Prop :=
  ∀ s r, (m s).1 = Exit r → P r.

End Runs.

(** A report that is not a no-op: a failure, or [changed=True]. *)
Definition not_noop (r : report) : Prop :=
  match r with
  | exit_report changed _ => changed = true
  | fail_report _ => True
  end.

(** The report of the dry run and of the absent web check. *)
Definition changed_report : report := exit_report true None.
Definition does_not_exist_report (web_check_name : value) : report :=
  exit_report false (Some ("msg", Text WebCheck_does_not_exist [FVal web_check_name])).

(** ** Runs of the module *)

Section RunLemmas.

Context {W : Type}.
Variable zapi : method -> value -> W -> reply * W.

Lemma bind_run {A B} (m : M (W:=W) A) (f : A → M B) s :
  (m ≫= f) s =
  match m s with
  | (Ret a, s') => f a s'
  | (Exit r, s') => (Exit r, s')
  | (Raise e, s') => (Raise e, s')
  end.
Proof. reflexivity. Qed.

Lemma replay_app (w : W) cs1 cs2 :
  replay zapi w (cs1 ++ cs2) = replay zapi (replay zapi w cs1) cs2.
Proof.
  revert w. induction cs1 as [|[m a] cs1 IH]; intros w; [done|]. simpl. apply IH.
Qed.

Lemma silent_staged {A} lo hi (m : M (W:=W) A) : silent m → staged zapi lo hi m.
Proof.
  intros Hm s. exists []. rewrite Hm, app_nil_r.
  split_and!; [done|done|constructor|constructor].
Qed.

Lemma silent_lift {A} (o : outcome A) : silent (W:=W) (lift o).
Proof. by intros s. Qed.

Lemma silent_ret {A} (a : A) : silent (W:=W) (mret a).
Proof. by intros s. Qed.

Lemma silent_bind {A B} (m : M (W:=W) A) (f : A → M B) :
  silent m → (∀ a, silent (f a)) → silent (m ≫= f).
Proof.
  intros Hm Hf s. rewrite bind_run. pose proof (Hm s) as Hs.
  destruct (m s) as [[a|r|e] s']; simpl in *; subst; [apply Hf|done..].
Qed.

Lemma staged_weaken {A} lo hi lo' hi' (m : M (W:=W) A) :
  staged zapi lo hi m → (lo' ≤ lo)%nat → (hi ≤ hi')%nat → staged zapi lo' hi' m.
Proof.
  intros Hm ? ? s. destruct (Hm s) as (cs & ? & ? & ? & Hall).
  exists cs. split_and!; [done..|].
  eapply Forall_impl; [done|]. simpl. intros; lia.
Qed.

Lemma staged_bind {A B} lo mid lo' hi (m : M (W:=W) A) (f : A → M B) :
  staged zapi lo mid m → (∀ a, staged zapi lo' hi (f a)) →
  (lo ≤ lo')%nat → (mid ≤ hi)%nat → (mid < lo')%nat ∨ mid = 0%nat →
  staged zapi lo hi (m ≫= f).
Proof.
  intros Hm Hf ? ? Hsep s. rewrite bind_run.
  destruct (Hm s) as (cs & Hc & Hr & Ho & Hall).
  destruct (m s) as [[a|r|e] s']; simpl in *;
    [|exists cs; split_and!; [done..|eapply Forall_impl; [done|simpl; intros; lia]]..].
  destruct (Hf a s') as (cs' & Hc' & Hr' & Ho' & Hall').
  exists (cs ++ cs'). split_and!.
  - by rewrite Hc', Hc, app_assoc.
  - by rewrite Hr', Hr, replay_app.
  - rewrite fmap_app. apply StronglySorted_app_2; [|done..].
    intros x1 x2 H1 H2.
    apply list_elem_of_fmap in H1 as ([? a1] & -> & H1).
    apply list_elem_of_fmap in H2 as ([? a2] & -> & H2).
    rewrite Forall_forall in Hall, Hall'.
    specialize (Hall _ H1). specialize (Hall' _ H2). simpl in *.
    unfold follows. lia.
  - apply Forall_app. split; (eapply Forall_impl; [done|simpl; intros; lia]).
Qed.

Lemma staged_try_except {A} lo hi (body : M (W:=W) A) handler :
  staged zapi lo hi body → (∀ e, silent (handler e)) →
  staged zapi lo hi (try_except body handler).
Proof.
  intros Hb Hh s. unfold try_except.
  destruct (Hb s) as (cs & Hc & Hr & Ho & Hall).
  exists cs. destruct (body s) as [[a|r|e] s']; simpl in *; [done..|].
  by rewrite Hh.
Qed.

Lemma staged_zapi_call m arg : staged zapi (stage m) (stage m) (zapi_call zapi m arg).
Proof.
  intros s. exists [(m, arg)]. unfold zapi_call.
  destruct (zapi m arg (remote s)) as [[v|e] w] eqn:Hz; simpl;
    rewrite Hz; (split_and!; [done|done|repeat constructor|repeat constructor]).
Qed.

Lemma exits_with_lift {A} P (o : outcome A) :
  (∀ r, o = Exit r → P r) → exits_with (W:=W) P (lift o).
Proof. intros Ho s r. apply Ho. Qed.

Lemma exits_with_ret {A} P (a : A) : exits_with (W:=W) P (mret a).
Proof. by intros s r. Qed.

Lemma exits_with_bind {A B} P (m : M (W:=W) A) (f : A → M B) :
  exits_with P m → (∀ a, exits_with P (f a)) → exits_with P (m ≫= f).
Proof.
  intros Hm Hf s r. rewrite bind_run. pose proof (Hm s) as Hs.
  destruct (m s) as [[a|r'|e] s']; simpl in *; [apply Hf| |done].
  intros [= <-]. by apply Hs.
Qed.

Lemma exits_with_try_except {A} P (body : M (W:=W) A) handler :
  exits_with P body → (∀ e, exits_with P (handler e)) →
  exits_with P (try_except body handler).
Proof.
  intros Hb Hh s r. unfold try_except. pose proof (Hb s) as Hs.
  destruct (body s) as [[a|r'|e] s']; simpl in *; [done| |apply Hh].
  intros [= <-]. by apply Hs.
Qed.

Lemma exits_with_zapi_call P m arg : exits_with P (zapi_call zapi m arg).
Proof.
  intros s r. unfold zapi_call.
  by destruct (zapi m arg (remote s)) as [[v|e] w].
Qed.

End RunLemmas.

Section ModuleRuns.

Context {W : Type}.
Variable zapi : method -> value -> W -> reply * W.
Variable check_mode : bool.
Variable HAS_ZABBIX_API : bool.

(** The last stage a run reaches: a dry run stays at the lookups. *)
Definition top (k : nat) : nat := if check_mode then 0%nat else k.

Lemma staged_bind_silent {A B} lo hi (m : M (W:=W) A) (f : A → M B) :
  silent m → (∀ a, staged zapi lo hi (f a)) → staged zapi lo hi (m ≫= f).
Proof.
  intros Hm Hf s. rewrite bind_run. pose proof (Hm s) as Hs.
  destruct (m s) as [[a|r|e] s']; simpl in *; subst; [apply Hf|..];
    (exists []; rewrite app_nil_r; split_and!; [done|done|constructor|constructor]).
Qed.

Lemma staged_bind_last {A B} lo hi (m : M (W:=W) A) (f : A → M B) :
  staged zapi lo hi m → (∀ a, silent (f a)) → staged zapi lo hi (m ≫= f).
Proof.
  intros Hm Hf s. rewrite bind_run.
  destruct (Hm s) as (cs & Hc & Hr & Ho & Hall). exists cs.
  destruct (m s) as [[a|r|e] s']; simpl in *; [|done..].
  by rewrite Hf.
Qed.

Lemma silent_exit_bind {A B} r (f : A → M (W:=W) B) : silent (lift (Exit r) ≫= f).
Proof. by intros s. Qed.

Ltac silent_auto :=
  repeat first
    [ apply silent_lift | apply silent_ret | apply silent_exit_bind
    | apply silent_bind; [|intros ?]
    | match goal with
      | |- silent (if ?b then _ else _) => destruct b
      end ].

Lemma dry_run_gate : silent (W:=W) (if check_mode then lift (exit_json true None) else mret ()).
Proof. silent_auto. Qed.

Lemma get_host_id_staged host_name : staged zapi 0 0 (get_host_id zapi host_name).
Proof.
  unfold get_host_id. apply staged_try_except; [|intros; silent_auto].
  apply (staged_bind zapi 0 0 0 0); [apply staged_zapi_call|intros host_list|lia..].
  apply silent_staged. silent_auto.
Qed.

Lemma get_web_check_staged web_check_name host_id :
  staged zapi 0 0 (get_web_check zapi web_check_name host_id).
Proof.
  unfold get_web_check. apply staged_try_except; [|intros; silent_auto].
  apply (staged_bind zapi 0 0 0 0); [apply staged_zapi_call|intros web_check_list|lia..].
  apply silent_staged. silent_auto.
Qed.

Lemma create_application_staged hostId applicationName :
  staged zapi (top 1) (top 1) (create_application zapi check_mode hostId applicationName).
Proof.
  unfold create_application, top. apply staged_try_except; [|intros; silent_auto].
  destruct check_mode.
  - apply silent_staged. apply silent_exit_bind.
  - apply staged_bind_silent; [silent_auto|intros _]. apply staged_zapi_call.
Qed.

Lemma get_application_id_staged host_id application_name :
  staged zapi 0 (top 1) (get_application_id zapi check_mode host_id application_name).
Proof.
  unfold get_application_id. apply staged_try_except; [|intros; silent_auto].
  apply (staged_bind zapi 0 0 0 (top 1));
    [apply staged_zapi_call|intros application_list|lia..].
  apply staged_bind_silent; [silent_auto|intros n].
  destruct (n <? 1)%nat; [|apply silent_staged; silent_auto].
  apply (staged_bind zapi 0 (top 1) 2 (top 1));
    [eapply staged_weaken; [apply create_application_staged|lia..]
    |intros applicationids|lia|lia|].
  - apply silent_staged. silent_auto.
  - unfold top. destruct check_mode; lia.
Qed.

Lemma mutation_staged {A} (m : method) arg (k : M (W:=W) A) handler :
  stage m = 2%nat → silent k → (∀ e, silent (handler e)) →
  staged zapi (top 2) (top 2)
    (try_except
       ((if check_mode then lift (exit_json true None) else mret ());;
        zapi_call zapi m arg;; k) handler).
Proof.
  intros Hm Hk Hh. apply staged_try_except; [|done]. unfold top.
  destruct check_mode.
  - apply silent_staged. apply silent_exit_bind.
  - apply staged_bind_silent; [apply silent_ret|intros _].
    apply staged_bind_last; [|done]. rewrite <-Hm. apply staged_zapi_call.
Qed.

Lemma create_web_check_staged web_check_name host_id application_id web_check_steps
    scenario_optional_properties :
  staged zapi (top 2) (top 2)
    (create_web_check zapi check_mode web_check_name host_id application_id
       web_check_steps scenario_optional_properties).
Proof.
  unfold create_web_check. apply staged_bind_silent; [apply silent_lift|intros ps].
  apply mutation_staged; [done|apply silent_lift|intros; apply silent_lift].
Qed.

Lemma update_web_check_staged web_check_obj web_check_name host_id application_id
    web_check_steps scenario_optional_properties :
  staged zapi (top 2) (top 2)
    (update_web_check zapi check_mode web_check_obj web_check_name host_id
       application_id web_check_steps scenario_optional_properties).
Proof.
  unfold update_web_check. apply staged_bind_silent; [apply silent_lift|intros id].
  apply staged_bind_silent; [apply silent_lift|intros ps].
  apply mutation_staged; [done|apply silent_lift|intros; apply silent_lift].
Qed.

Lemma delete_web_check_staged webCheckObj :
  staged zapi (top 2) (top 2) (delete_web_check zapi check_mode webCheckObj).
Proof.
  unfold delete_web_check. apply staged_bind_silent; [apply silent_lift|intros id].
  apply staged_bind_silent; [apply silent_lift|intros name].
  apply mutation_staged; [done|apply silent_lift|intros; apply silent_lift].
Qed.

Lemma main_staged p : staged zapi 0 (top 2) (main zapi check_mode HAS_ZABBIX_API p).
Proof.
  unfold main.
  apply staged_bind_silent; [silent_auto|intros _].
  apply staged_bind_silent; [silent_auto|intros b].
  apply staged_bind_silent; [silent_auto|intros web_check_name].
  apply (staged_bind zapi 0 0 0 (top 2)); [|intros _|lia..].
  { apply staged_try_except; [apply staged_zapi_call|intros; apply silent_lift]. }
  apply staged_bind_silent; [silent_auto|intros host_name].
  apply staged_bind_silent; [silent_auto|intros _].
  apply (staged_bind zapi 0 0 0 (top 2)); [apply get_host_id_staged|intros host_id|lia..].
  apply (staged_bind zapi 0 0 0 (top 2));
    [apply get_web_check_staged|intros web_check_obj|lia..].
  destruct (Py.eq (state p) (VStr "absent")).
  - destruct (Py.truthy web_check_obj).
    + eapply staged_weaken; [apply delete_web_check_staged|lia..].
    + apply silent_staged, silent_lift.
  - apply staged_bind_silent; [silent_auto|intros application_name].
    apply staged_bind_silent; [silent_auto|intros _].
    apply (staged_bind zapi 0 0 0 (top 2));
      [apply get_host_id_staged|intros host_id'|lia..].
    apply (staged_bind zapi 0 (top 1) (top 2) (top 2));
      [apply get_application_id_staged|intros application_id
      |lia|unfold top; destruct check_mode; lia..].
    apply staged_bind_silent; [silent_auto|intros web_check_steps].
    apply staged_bind_silent; [silent_auto|intros scenario_optional_properties].
    destruct (Py.truthy web_check_obj).
    + apply update_web_check_staged.
    + apply create_web_check_staged.
Qed.

End ModuleRuns.

(** Every report a pure computation ends the run with satisfies [P]. *)
Definition exits_pure {A} (P : report → Prop) (o : outcome A) : Prop :=
  ∀ r, o = Exit r → P r.

(** ** Which reports a run can end with *)

Lemma exits_pure_ret {A} P (a : A) : exits_pure P (Ret a).
Proof. by intros r. Qed.

Lemma exits_pure_mret {A} P (a : A) : exits_pure P (mret a).
Proof. by intros r. Qed.

Lemma exits_pure_raise {A} P e : exits_pure (A:=A) P (Raise e).
Proof. by intros r. Qed.

Lemma exits_pure_fail {A} t args : exits_pure (A:=A) not_noop (fail_json t args).
Proof. by intros r [= <-]. Qed.

Lemma exits_pure_bind {A B} P (o : outcome A) (f : A → outcome B) :
  exits_pure P o → (∀ a, exits_pure P (f a)) → exits_pure P (o ≫= f).
Proof.
  intros Ho Hf r. destruct o as [a|r'|e]; simpl; [apply Hf| |done].
  intros [= <-]. by apply Ho.
Qed.

Lemma exits_pure_len P v : exits_pure P (Py.len v).
Proof. by destruct v. Qed.

Lemma exits_pure_first P v : exits_pure P (Py.first v).
Proof. destruct v as [| | |[|]|[|]|]; by intros r. Qed.

Lemma exits_pure_getitem P v k : exits_pure P (Py.getitem v k).
Proof. destruct v; try by intros r. simpl. by destruct (d !! k). Qed.

Lemma exits_pure_contains P k v : exits_pure P (Py.contains k v).
Proof. by destruct v. Qed.

Lemma exits_pure_iter P v : exits_pure P (Py.iter v).
Proof. by destruct v. Qed.

Ltac exits_pure_auto :=
  repeat first
    [ apply exits_pure_ret | apply exits_pure_mret | apply exits_pure_raise
    | apply exits_pure_fail
    | apply exits_pure_len | apply exits_pure_first | apply exits_pure_getitem
    | apply exits_pure_contains | apply exits_pure_iter
    | apply exits_pure_bind; [|intros ?]
    | match goal with
      | |- exits_pure _ (if ?b then _ else _) => destruct b
      | |- exits_pure _ (match ?x with _ => _ end) => destruct x
      end ].

Lemma exits_pure_get_value_by_key P v k : exits_pure P (get_value_by_key v k).
Proof. unfold get_value_by_key. exits_pure_auto. Qed.

Lemma exits_pure_optional_properties P v keys acc :
  exits_pure P (optional_properties v keys acc).
Proof.
  revert acc. induction keys as [|k keys IH]; intros acc; cbn [optional_properties].
  - exits_pure_auto.
  - apply exits_pure_bind; [apply exits_pure_get_value_by_key|intros x; apply IH].
Qed.

Lemma exits_pure_required_property v k t : exits_pure not_noop (required_property v k t).
Proof. unfold required_property. exits_pure_auto. Qed.

Lemma exits_pure_get_step v : exits_pure not_noop (get_step v).
Proof.
  unfold get_step.
  do 3 (apply exits_pure_bind; [apply exits_pure_required_property|intros ?]).
  apply exits_pure_bind; [apply exits_pure_optional_properties|intros ?].
  exits_pure_auto.
Qed.

Lemma exits_pure_get_steps_loop items acc : exits_pure not_noop (get_steps_loop items acc).
Proof.
  revert acc. induction items as [|v items IH]; intros acc; cbn [get_steps_loop].
  - exits_pure_auto.
  - apply exits_pure_bind; [apply exits_pure_get_step|intros s; apply IH].
Qed.

Lemma exits_pure_get_steps v : exits_pure not_noop (get_steps v).
Proof.
  unfold get_steps. destruct (Py.truthy v); [|apply exits_pure_fail].
  apply exits_pure_bind; [apply exits_pure_iter|intros items].
  apply exits_pure_get_steps_loop.
Qed.

Lemma exits_pure_scan_old_steps P s olds id : exits_pure P (scan_old_steps s olds id).
Proof.
  induction olds as [|o olds IH]; cbn [scan_old_steps]; [exits_pure_auto|].
  apply exits_pure_bind; [apply exits_pure_getitem|intros u].
  apply exits_pure_bind; [apply exits_pure_getitem|intros u'].
  destruct (Py.eq u u'); [exits_pure_auto|apply IH].
Qed.

Lemma exits_pure_replace_steps_loop P old news id acc :
  exits_pure P (replace_steps_loop old news id acc).
Proof.
  revert acc. induction news as [|s news IH]; intros acc; cbn [replace_steps_loop];
    [exits_pure_auto|].
  apply exits_pure_bind; [apply exits_pure_iter|intros olds].
  apply exits_pure_bind; [apply exits_pure_scan_old_steps|intros found]. apply IH.
Qed.

Lemma exits_pure_get_web_check_params web_check_name host_id application_id
    web_check_steps optional_scenario_values web_check_obj httptestid :
  exits_pure not_noop
    (get_web_check_params web_check_name host_id application_id web_check_steps
       optional_scenario_values web_check_obj httptestid).
Proof.
  unfold get_web_check_params.
  apply exits_pure_bind; [apply exits_pure_get_steps|intros steps].
  apply exits_pure_bind; [|intros steps'; exits_pure_auto].
  destruct (Py.truthy httptestid); [|exits_pure_auto].
  apply exits_pure_bind; [apply exits_pure_getitem|intros old].
  destruct (Py.truthy old); [|exits_pure_auto].
  apply exits_pure_replace_steps_loop.
Qed.

Lemma exits_pure_changed {A} extra : exits_pure (A:=A) not_noop (exit_json true extra).
Proof. by intros r [= <-]. Qed.

Section ModuleReports.

Context {W : Type}.
Variable zapi : method -> value -> W -> reply * W.
Variable check_mode : bool.
Variable HAS_ZABBIX_API : bool.

Lemma exits_with_pure {A} P (o : outcome A) :
  exits_pure P o → exits_with (W:=W) P (lift o).
Proof. intros Ho s r. apply Ho. Qed.

Ltac exits_auto :=
  repeat first
    [ apply exits_with_ret | apply exits_with_zapi_call
    | apply exits_with_pure;
        first [ apply exits_pure_get_web_check_params
              | apply exits_pure_get_value_by_key
              | apply exits_pure_optional_properties
              | apply exits_pure_changed
              | exits_pure_auto ]
    | apply exits_with_bind; [|intros ?]
    | apply exits_with_try_except; [|intros ?]
    | match goal with
      | |- exits_with _ (if ?b then _ else _) => destruct b
      end ].







Lemma delete_web_check_reports webCheckObj :
  exits_with not_noop (delete_web_check zapi check_mode webCheckObj).
Proof. unfold delete_web_check. exits_auto. Qed.


End ModuleReports.

(** ** The claims about runs *)

Lemma stage_mutating m : stage m = 0%nat ↔ mutating m = false.
Proof. by destruct m. Qed.

Lemma replay_read_only {W} (zapi : method → value → W → reply * W) w cs :
  (∀ m a w, mutating m = false → (zapi m a w).2 = w) →
  Forall (λ c : call, mutating c.1 = false) cs →
  replay zapi w cs = w.
Proof.
  intros Hro Hall. induction Hall as [|[m a] cs Hm _ IH]; [done|].
  simpl in *. by rewrite Hro.
Qed.

Lemma main_check_mode_calls {W} (zapi : method → value → W → reply * W) HAS p s :
  ∃ cs, calls (main zapi true HAS p s).2 = calls s ++ cs
        ∧ Forall (λ c : call, mutating c.1 = false) cs
        ∧ remote (main zapi true HAS p s).2 = replay zapi (remote s) cs.
Proof.
  destruct (main_staged zapi true HAS p s) as (cs & Hc & Hr & _ & Hall).
  exists cs. split_and!; [done| |done].
  eapply Forall_impl; [done|]. intros [m a]. simpl. unfold top.
  intros ?. apply stage_mutating. lia.
Qed.

(** C4: in check mode every mutating branch (the creation of the
    application, and the creation, update and deletion of the web check)
    ends the run with [changed=True] and leaves the state of the run,
    remote system and call log, as it found it; and a whole run issues no
    create, update or delete call, so that a remote system whose lookups
    change nothing is left unchanged. *)
Theorem check_mode_short_circuit {W} (zapi : method → value → W → reply * W)
    (HAS_ZABBIX_API : bool) :
  (∀ hostId applicationName s,
     create_application zapi true hostId applicationName s = (Exit changed_report, s))
  ∧ (∀ (webCheckObj : dict) id name s,
       webCheckObj !! "httptestid" = Some id → webCheckObj !! "name" = Some name →
       delete_web_check zapi true (VDict webCheckObj) s = (Exit changed_report, s))
  ∧ (∀ name host_id application_id steps optional ps s,
       get_web_check_params name host_id application_id steps optional VNone VNone
       = Ret ps →
       create_web_check zapi true name host_id application_id steps optional s
       = (Exit changed_report, s))
  ∧ (∀ (web_check_obj : dict) id name host_id application_id steps optional ps s,
       web_check_obj !! "httptestid" = Some id →
       get_web_check_params name host_id application_id steps optional
         (VDict web_check_obj) id = Ret ps →
       update_web_check zapi true (VDict web_check_obj) name host_id application_id
         steps optional s = (Exit changed_report, s))
  ∧ (∀ p s, ∃ cs,
       calls (main zapi true HAS_ZABBIX_API p s).2 = calls s ++ cs
       ∧ Forall (λ c : call, mutating c.1 = false) cs)
  ∧ ((∀ m a w, mutating m = false → (zapi m a w).2 = w) →
     ∀ p s, remote (main zapi true HAS_ZABBIX_API p s).2 = remote s).
Proof.
  split_and!.
  - done.
  - intros obj id name s Hid Hname. unfold delete_web_check.
    rewrite !bind_run. unfold lift, Py.getitem. by rewrite Hid, Hname.
  - intros name host_id application_id steps optional ps s Hps.
    unfold create_web_check. rewrite bind_run. unfold lift. by rewrite Hps.
  - intros obj id name host_id application_id steps optional ps s Hid Hps.
    unfold update_web_check. rewrite !bind_run. unfold lift at 1, Py.getitem.
    rewrite Hid. rewrite bind_run. unfold lift at 1. by rewrite Hps.
  - intros p s. destruct (main_check_mode_calls zapi HAS_ZABBIX_API p s)
      as (cs & ? & ? & _). by exists cs.
  - intros Hro p s. destruct (main_check_mode_calls zapi HAS_ZABBIX_API p s)
      as (cs & _ & Hall & ->). by apply replay_read_only.
Qed.

Section Steps.

Context {W : Type}.
Variable zapi : method -> value -> W -> reply * W.

Lemma bind_ret_run {A B} (m : M (W:=W) A) (f : A → M B) s a s' :
  m s = (Ret a, s') → (m ≫= f) s = f a s'.
Proof. intros Hm. by rewrite bind_run, Hm. Qed.

Lemma lift_run {A} (o : outcome A) (s : machine (W:=W)) : lift o s = (o, s).
Proof. done. Qed.

Lemma zapi_call_returns m arg s v w :
  zapi m arg (remote s) = (Returns v, w) →
  zapi_call zapi m arg s = (Ret v, Machine w (calls s ++ [(m, arg)])).
Proof. intros Hz. unfold zapi_call. by rewrite Hz. Qed.

Lemma zapi_call_throws m arg s e w :
  zapi m arg (remote s) = (Throws e, w) →
  zapi_call zapi m arg s = (Raise (APIError e), Machine w (calls s ++ [(m, arg)])).
Proof. intros Hz. unfold zapi_call. by rewrite Hz. Qed.

Lemma get_host_id_found host_name s (h : dict) hosts hostid w :
  zapi host_get (host_get_params host_name) (remote s)
  = (Returns (VList (VDict h :: hosts)), w) →
  h !! "hostid" = Some hostid →
  get_host_id zapi host_name s
  = (Ret hostid, Machine w (calls s ++ [(host_get, host_get_params host_name)])).
Proof.
  intros Hz Hid. unfold get_host_id, try_except. rewrite bind_run.
  pose proof (zapi_call_returns _ _ _ _ _ Hz) as Hc. unfold host_get_params in Hc.
  rewrite Hc. rewrite bind_run. simpl. unfold lift. by rewrite Hid.
Qed.

Lemma get_web_check_none web_check_name host_id s w :
  zapi webcheck_get (webcheck_get_params web_check_name host_id) (remote s)
  = (Returns (VList []), w) →
  get_web_check zapi web_check_name host_id s
  = (Ret VNone,
     Machine w (calls s ++ [(webcheck_get, webcheck_get_params web_check_name host_id)])).
Proof.
  intros Hz. unfold get_web_check, try_except. rewrite bind_run.
  pose proof (zapi_call_returns _ _ _ _ _ Hz) as Hc. unfold webcheck_get_params in Hc.
  by rewrite Hc.
Qed.

End Steps.

Lemma contains_present (d : dict) k v :
  d !! k = Some v → Py.contains k (VDict d) = Ret true.
Proof. intros H. simpl. by rewrite H. Qed.

Lemma contains_missing (d : dict) k :
  d !! k = None → Py.contains k (VDict d) = Ret false.
Proof. intros H. simpl. by rewrite H. Qed.

Lemma getitem_present (d : dict) k v :
  d !! k = Some v → Py.getitem (VDict d) k = Ret v.
Proof. intros H. simpl. by rewrite H. Qed.

Lemma get_value_by_key_present (d : dict) k v :
  d !! k = Some v → get_value_by_key (VDict d) k = Ret v.
Proof. intros H. by rewrite get_value_by_key_dict, H. Qed.

(** C8: a run with [state=absent] whose web-check lookup on the resolved
    host returns no record reports [changed=False] with the message that
    the web check does not exist; it has issued the login and the two
    lookups, and no create, update or delete call. *)
Theorem absent_on_absent_noop {W} (zapi : method → value → W → reply * W)
    (check_mode : bool) (p : params) (d : dict) (web_check_name host_name : value)
    (s : machine) (session : value) (h : dict) (hosts : list value) (hostid : value)
    (w1 w2 w3 : W) :
  web_check p = VDict d →
  d !! "web_check_name" = Some web_check_name →
  d !! "host_name" = Some host_name → Py.truthy host_name = true →
  Py.eq (state p) (VStr "absent") = true →
  zapi user_login (login_args p) (remote s) = (Returns session, w1) →
  zapi host_get (host_get_params host_name) w1 = (Returns (VList (VDict h :: hosts)), w2) →
  h !! "hostid" = Some hostid →
  zapi webcheck_get (webcheck_get_params web_check_name hostid) w2
  = (Returns (VList []), w3) →
  let issued := [(user_login, login_args p); (host_get, host_get_params host_name);
                 (webcheck_get, webcheck_get_params web_check_name hostid)] in
  main zapi check_mode true p s
  = (Exit (does_not_exist_report web_check_name), Machine w3 (calls s ++ issued))
  ∧ Forall (λ c : call, mutating c.1 = false) issued.
Proof.
  intros Hwc Hname Hhost Htruthy Hstate Hlogin Hhosts Hid Hget issued.
  split; [|by repeat constructor].
  unfold login_args in Hlogin. unfold main. rewrite Hwc, Hstate.
  rewrite (bind_ret_run _ _ s () s) by done.
  rewrite (bind_ret_run _ _ s true s)
    by (by rewrite lift_run, (contains_present d _ web_check_name)).
  rewrite (bind_ret_run _ _ s web_check_name s)
    by (by rewrite lift_run, (getitem_present d _ web_check_name)).
  erewrite bind_ret_run;
    [|unfold try_except; by rewrite (zapi_call_returns zapi _ _ _ _ _ Hlogin)].
  erewrite bind_ret_run;
    [|by rewrite lift_run, (get_value_by_key_present d _ host_name)].
  rewrite Htruthy. erewrite bind_ret_run by done.
  erewrite bind_ret_run; [|by apply (get_host_id_found zapi host_name _ h hosts hostid w2)].
  erewrite bind_ret_run; [|by apply (get_web_check_none zapi web_check_name hostid _ w3)].
  simpl. unfold issued. by rewrite <-!app_assoc.
Qed.

Lemma in_order_lookup ms i j a b :
  in_order ms → ms !! i = Some a → ms !! j = Some b → (i < j)%nat → follows a b.
Proof.
  intros H. revert i j. induction H as [|x l Hl IH Hall]; intros i j Hi Hj Hlt.
  - done.
  - destruct i as [|i], j as [|j]; simpl in *; try lia.
    + simplify_eq. rewrite Forall_forall in Hall. apply Hall.
      by eapply list_elem_of_lookup_2.
    + eapply IH; [done..|lia].
Qed.

Lemma in_order_create_once ms i j :
  in_order ms → ms !! i = Some application_create → ms !! j = Some application_create →
  i = j.
Proof.
  intros H Hi Hj. destruct (Nat.lt_trichotomy i j) as [Hlt|[->|Hlt]]; [|done|].
  - destruct (in_order_lookup _ _ _ _ _ H Hi Hj Hlt) as [?|[? ?]]; simpl in *; lia.
  - destruct (in_order_lookup _ _ _ _ _ H Hj Hi Hlt) as [?|[? ?]]; simpl in *; lia.
Qed.

Lemma in_order_create_first ms i j m :
  in_order ms → ms !! i = Some application_create → ms !! j = Some m →
  m = webcheck_create ∨ m = webcheck_update → (i < j)%nat.
Proof.
  intros H Hi Hj Hm. destruct (Nat.lt_trichotomy i j) as [Hlt|[->|Hlt]]; [done| |].
  - rewrite Hi in Hj. destruct Hm; simplify_eq.
  - destruct (in_order_lookup _ _ _ _ _ H Hj Hi Hlt) as [?|[? ?]];
      destruct Hm; subst; simpl in *; lia.
Qed.

Section Resolution.

Context {W : Type}.
Variable zapi : method -> value -> W -> reply * W.

Lemma get_application_id_creates host_id application_name s lst w1 :
  zapi application_get (application_get_params host_id application_name) (remote s)
  = (Returns lst, w1) →
  Py.len lst = Ret 0%nat →
  calls (get_application_id zapi false host_id application_name s).2
  = calls s ++ [(application_get, application_get_params host_id application_name);
                (application_create, application_create_params host_id application_name)].
Proof.
  intros Hz Hlen. unfold get_application_id, try_except.
  pose proof (zapi_call_returns zapi _ _ _ _ _ Hz) as Hc.
  unfold application_get_params in Hc.
  rewrite bind_run, Hc. rewrite bind_run, lift_run, Hlen.
  cbn [Nat.ltb Nat.leb]. rewrite bind_run.
  unfold create_application, try_except. rewrite bind_run. cbn [mret M_ret].
  unfold zapi_call at 1. cbn [remote calls].
  destruct (zapi application_create _ w1) as [[v|e] w2]; [|by rewrite <-app_assoc].
  match goal with
  | |- context [mbind ?f ?m ?st] =>
      assert (silent (mbind f m)) as Hs; [|specialize (Hs st); destruct (mbind f m st)
                                             as [[a|r|e] s']]
  end.
  { apply silent_bind; [apply silent_lift|intros k].
    destruct k; [apply silent_ret|].
    apply silent_bind; [apply silent_lift|intros ids; apply silent_lift]. }
  all: simpl in Hs; subst s'; cbn; by rewrite <-app_assoc.
Qed.

Lemma get_application_id_created host_id application_name s lst w1
    (res : dict) first rest w2 :
  zapi application_get (application_get_params host_id application_name) (remote s)
  = (Returns lst, w1) →
  Py.len lst = Ret 0%nat →
  zapi application_create (application_create_params host_id application_name) w1
  = (Returns (VDict res), w2) →
  res !! "applicationids" = Some (VList (first :: rest)) →
  get_application_id zapi false host_id application_name s
  = (Ret first,
     Machine w2
       (calls s ++ [(application_get, application_get_params host_id application_name);
                    (application_create,
                     application_create_params host_id application_name)])).
Proof.
  intros Hz Hlen Hcreate Hids. unfold get_application_id, try_except.
  pose proof (zapi_call_returns zapi _ _ _ _ _ Hz) as Hc.
  unfold application_get_params in Hc.
  rewrite bind_run, Hc. rewrite bind_run, lift_run, Hlen.
  cbn [Nat.ltb Nat.leb]. rewrite bind_run.
  unfold create_application, try_except. rewrite bind_run. cbn [mret M_ret].
  unfold application_create_params in Hcreate.
  unfold zapi_call at 1. cbn [remote calls]. rewrite Hcreate.
  rewrite bind_run, lift_run. cbn [Py.len].
  assert (size res ≠ 0%nat) as Hne
    by (by apply (map_size_ne_0_lookup_2 res "applicationids")).
  destruct (size res); [done|].
  rewrite bind_run, lift_run. cbn [Py.getitem]. rewrite Hids.
  rewrite lift_run. cbn [Py.first]. by rewrite <-app_assoc.
Qed.

End Resolution.

(** C5, as the code has it: outside check mode, an application lookup by
    (host identifier, name) that returns no match is followed by exactly
    one application create call, and when that call returns a result whose
    [applicationids] list is not empty, the identifier used afterwards is
    the first of that list.  In check mode the same lookup ends the run
    with [changed=True] after the lookup alone: no create call is issued.
    In any run the application create call comes at most once, and before
    the call that creates or updates the web check. *)
Theorem application_resolution_creates_once {W}
    (zapi : method → value → W → reply * W) :
  (∀ host_id application_name s lst w1,
     zapi application_get (application_get_params host_id application_name) (remote s)
     = (Returns lst, w1) →
     Py.len lst = Ret 0%nat →
     let issued :=
       [(application_get, application_get_params host_id application_name);
        (application_create, application_create_params host_id application_name)] in
     calls (get_application_id zapi false host_id application_name s).2
     = calls s ++ issued
     ∧ ∀ (res : dict) first rest w2,
         zapi application_create (application_create_params host_id application_name) w1
         = (Returns (VDict res), w2) →
         res !! "applicationids" = Some (VList (first :: rest)) →
         get_application_id zapi false host_id application_name s
         = (Ret first, Machine w2 (calls s ++ issued)))
  ∧ (∀ host_id application_name s lst w1,
       zapi application_get (application_get_params host_id application_name) (remote s)
       = (Returns lst, w1) →
       Py.len lst = Ret 0%nat →
       get_application_id zapi true host_id application_name s
       = (Exit changed_report,
          Machine w1 (calls s ++ [(application_get,
                                   application_get_params host_id application_name)])))
  ∧ (∀ check_mode HAS_ZABBIX_API p s, ∃ cs,
       calls (main zapi check_mode HAS_ZABBIX_API p s).2 = calls s ++ cs
       ∧ (∀ i j, cs.*1 !! i = Some application_create →
                 cs.*1 !! j = Some application_create → i = j)
       ∧ (∀ i j m, cs.*1 !! i = Some application_create → cs.*1 !! j = Some m →
                   m = webcheck_create ∨ m = webcheck_update → (i < j)%nat)).
Proof.
  split_and!.
  - intros host_id application_name s lst w1 Hz Hlen issued. split.
    + by apply (get_application_id_creates zapi _ _ _ lst w1).
    + intros res first rest w2 Hcreate Hids.
      by apply (get_application_id_created zapi _ _ _ lst w1 res first rest w2).
  - intros host_id application_name s lst w1 Hz Hlen.
    unfold get_application_id, try_except.
    pose proof (zapi_call_returns zapi _ _ _ _ _ Hz) as Hc.
    unfold application_get_params in Hc.
    rewrite bind_run, Hc. by rewrite bind_run, lift_run, Hlen.
  - intros check_mode HAS_ZABBIX_API p s.
    destruct (main_staged zapi check_mode HAS_ZABBIX_API p s) as (cs & Hc & _ & Ho & _).
    exists cs. split_and!; [done| |].
    + intros i j. by apply in_order_create_once.
    + intros i j m. by apply in_order_create_first.
Qed.

(** A [web_check] without the key [web_check_name] is rejected before any
    call is issued. *)
Lemma main_web_check_name_missing {W} (zapi : method → value → W → reply * W)
    (check_mode : bool) (p : params) (d : dict) (s : machine) :
  web_check p = VDict d → d !! "web_check_name" = None →
  main zapi check_mode true p s
  = (Exit (fail_report (Text Web_check_name_required [])), s).
Proof.
  intros Hwc Hname. unfold main. rewrite Hwc.
  rewrite (bind_ret_run _ _ s () s) by done.
  rewrite (bind_ret_run _ _ s false s)
    by (by rewrite lift_run, (contains_missing d)).
  by rewrite bind_run.
Qed.

(** * More of the module *)

(** ** The lookups *)

(** The host lookup issues one [host.get] call.  With no record it fails
    with the message that the host was not found; an exception of the
    client, or a first record without [hostid], fails with the message
    that names the cause; otherwise the result is the [hostid] of the
    first record, whatever follows it. *)
Theorem get_host_id_outcomes {W} (zapi : method → value → W → reply * W)
    (host_name : value) (s : machine) :
  let after w := Machine w (calls s ++ [(host_get, host_get_params host_name)]) in
  (∀ lst w,
     zapi host_get (host_get_params host_name) (remote s) = (Returns lst, w) →
     Py.len lst = Ret 0%nat →
     get_host_id zapi host_name s
     = (Exit (fail_report (Text Host_not_found [FVal host_name])), after w))
  ∧ (∀ (h : dict) hosts hostid w,
       zapi host_get (host_get_params host_name) (remote s)
       = (Returns (VList (VDict h :: hosts)), w) →
       h !! "hostid" = Some hostid →
       get_host_id zapi host_name s = (Ret hostid, after w))
  ∧ (∀ (h : dict) hosts w,
       zapi host_get (host_get_params host_name) (remote s)
       = (Returns (VList (VDict h :: hosts)), w) →
       h !! "hostid" = None →
       get_host_id zapi host_name s
       = (Exit (fail_report (Text Failed_to_get_the_host_id
                               [FVal host_name; FExn (KeyError "hostid")])), after w))
  ∧ (∀ e w,
       zapi host_get (host_get_params host_name) (remote s) = (Throws e, w) →
       get_host_id zapi host_name s
       = (Exit (fail_report (Text Failed_to_get_the_host_id
                               [FVal host_name; FExn (APIError e)])), after w)).
Proof.
  intros after. split_and!.
  - intros lst w Hz Hlen. unfold get_host_id, try_except. rewrite bind_run.
    pose proof (zapi_call_returns _ _ _ _ _ _ Hz) as Hc. unfold host_get_params in Hc.
    rewrite Hc. rewrite bind_run, lift_run, Hlen. reflexivity.
  - intros h hosts hostid w Hz Hid. by apply (get_host_id_found zapi _ _ h hosts).
  - intros h hosts w Hz Hid. unfold get_host_id, try_except. rewrite bind_run.
    pose proof (zapi_call_returns _ _ _ _ _ _ Hz) as Hc. unfold host_get_params in Hc.
    rewrite Hc. rewrite bind_run. simpl. unfold lift. by rewrite Hid.
  - intros e w Hz. unfold get_host_id, try_except. rewrite bind_run.
    pose proof (zapi_call_throws _ _ _ _ _ _ Hz) as Hc. unfold host_get_params in Hc.
    by rewrite Hc.
Qed.

(** The web-check lookup issues one [webcheck.get] call.  An empty result
    gives [None], a list gives its first record whatever follows it, and
    an exception of the client fails with the message naming the cause. *)
Theorem get_web_check_outcomes {W} (zapi : method → value → W → reply * W)
    (web_check_name host_id : value) (s : machine) :
  let after w :=
    Machine w (calls s ++ [(webcheck_get, webcheck_get_params web_check_name host_id)]) in
  (∀ lst w,
     zapi webcheck_get (webcheck_get_params web_check_name host_id) (remote s)
     = (Returns lst, w) →
     Py.len lst = Ret 0%nat →
     get_web_check zapi web_check_name host_id s = (Ret VNone, after w))
  ∧ (∀ c rest w,
       zapi webcheck_get (webcheck_get_params web_check_name host_id) (remote s)
       = (Returns (VList (c :: rest)), w) →
       get_web_check zapi web_check_name host_id s = (Ret c, after w))
  ∧ (∀ e w,
       zapi webcheck_get (webcheck_get_params web_check_name host_id) (remote s)
       = (Throws e, w) →
       get_web_check zapi web_check_name host_id s
       = (Exit (fail_report (Text Failed_to_get_WebCheck
                               [FVal web_check_name; FExn (APIError e)])), after w)).
Proof.
  intros after. split_and!.
  - intros lst w Hz Hlen. unfold get_web_check, try_except. rewrite bind_run.
    pose proof (zapi_call_returns _ _ _ _ _ _ Hz) as Hc.
    unfold webcheck_get_params in Hc. rewrite Hc.
    rewrite bind_run, lift_run, Hlen. reflexivity.
  - intros c rest w Hz. unfold get_web_check, try_except. rewrite bind_run.
    pose proof (zapi_call_returns _ _ _ _ _ _ Hz) as Hc.
    unfold webcheck_get_params in Hc. by rewrite Hc.
  - intros e w Hz. unfold get_web_check, try_except. rewrite bind_run.
    pose proof (zapi_call_throws _ _ _ _ _ _ Hz) as Hc.
    unfold webcheck_get_params in Hc. by rewrite Hc.
Qed.

(** ** Resolving the application *)

(** When the application lookup returns records, the identifier is the
    [applicationid] of the first one, and the resolution has issued the
    lookup only: nothing is created, in check mode or outside it. *)
Theorem get_application_id_existing {W} (zapi : method → value → W → reply * W)
    (check_mode : bool) (host_id application_name : value) (s : machine)
    (a : dict) (rest : list value) (applicationid : value) (w : W) :
  zapi application_get (application_get_params host_id application_name) (remote s)
  = (Returns (VList (VDict a :: rest)), w) →
  a !! "applicationid" = Some applicationid →
  get_application_id zapi check_mode host_id application_name s
  = (Ret applicationid,
     Machine w (calls s ++
                  [(application_get, application_get_params host_id application_name)])).
Proof.
  intros Hz Hid. unfold get_application_id, try_except.
  pose proof (zapi_call_returns zapi _ _ _ _ _ Hz) as Hc.
  unfold application_get_params in Hc.
  rewrite bind_run, Hc. rewrite bind_run, lift_run. cbn [Py.len length].
  cbn [Nat.ltb Nat.leb]. rewrite bind_run, lift_run. cbn [Py.first].
  rewrite lift_run. cbn [Py.getitem]. by rewrite Hid.
Qed.

(** Outside check mode, when the lookup returns no record and the create
    call does not give an identifier: an exception of the client (an
    application that exists already, say) ends the run with the message of
    the failed creation, without a second attempt and without being
    reported as a failed lookup; an empty result leaves the identifier at
    [None]; and a result with an empty [applicationids] list ends the run
    with the message of the failed lookup. *)
Theorem get_application_id_creation_edge {W} (zapi : method → value → W → reply * W)
    (host_id application_name : value) (s : machine) (lst : value) (w1 : W) :
  zapi application_get (application_get_params host_id application_name) (remote s)
  = (Returns lst, w1) →
  Py.len lst = Ret 0%nat →
  let after w :=
    Machine w (calls s ++
      [(application_get, application_get_params host_id application_name);
       (application_create, application_create_params host_id application_name)]) in
  (∀ e w2,
     zapi application_create (application_create_params host_id application_name) w1
     = (Throws e, w2) →
     get_application_id zapi false host_id application_name s
     = (Exit (fail_report (Text Failed_to_create_Application
                             [FVal application_name; FExn (APIError e)])), after w2))
  ∧ (∀ w2,
       zapi application_create (application_create_params host_id application_name) w1
       = (Returns (VDict ∅), w2) →
       get_application_id zapi false host_id application_name s = (Ret VNone, after w2))
  ∧ (∀ (res : dict) w2,
       zapi application_create (application_create_params host_id application_name) w1
       = (Returns (VDict res), w2) →
       res !! "applicationids" = Some (VList []) →
       get_application_id zapi false host_id application_name s
       = (Exit (fail_report (Text Failed_to_get_the_application_id
                               [FVal application_name; FExn IndexError])), after w2)).
Proof.
  intros Hz Hlen after.
  pose proof (zapi_call_returns zapi _ _ _ _ _ Hz) as Hc.
  unfold application_get_params in Hc.
  assert (∀ r w2,
    zapi application_create (application_create_params host_id application_name) w1
    = (r, w2) →
    get_application_id zapi false host_id application_name s
    = match r with
      | Throws e =>
          (Exit (fail_report (Text Failed_to_create_Application
                                [FVal application_name; FExn (APIError e)])), after w2)
      | Returns v =>
          try_except
            (k ← lift (Py.len v);
             if (0 <? k)%nat then
               ids ← lift (Py.getitem v "applicationids"); lift (Py.first ids)
             else mret VNone)
            (fun e => lift (fail_json Failed_to_get_the_application_id
                              [FVal application_name; FExn e]))
            (after w2)
      end) as Hstep.
  { intros r w2 Hcreate. unfold get_application_id, try_except.
    rewrite bind_run, Hc. rewrite bind_run, lift_run, Hlen.
    cbn [Nat.ltb Nat.leb]. rewrite bind_run.
    unfold create_application, try_except. rewrite bind_run. cbn [mret M_ret].
    unfold application_create_params in Hcreate.
    unfold zapi_call at 1. cbn [remote calls]. rewrite Hcreate.
    unfold after. destruct r as [v|e]; [|by rewrite <-app_assoc].
    by rewrite <-app_assoc. }
  split_and!.
  - intros e w2 Hcreate. by rewrite (Hstep _ _ Hcreate).
  - intros w2 Hcreate. by rewrite (Hstep _ _ Hcreate).
  - intros res w2 Hcreate Hids. rewrite (Hstep _ _ Hcreate).
    unfold try_except. rewrite bind_run, lift_run. cbn [Py.len].
    assert (size res ≠ 0%nat) as Hne
      by (by apply (map_size_ne_0_lookup_2 res "applicationids")).
    destruct (size res); [done|]. cbn [Nat.ltb Nat.leb].
    rewrite bind_run, lift_run. cbn [Py.getitem]. by rewrite Hids.
Qed.

(** ** The discipline of a run *)

Lemma in_order_mutation_last ms i m :
  in_order ms → ms !! i = Some m → stage m = 2%nat → length ms = S i.
Proof.
  intros Ho Hi Hm.
  assert (i < length ms)%nat as Hlt by (by eapply lookup_lt_Some).
  destruct (decide (length ms = S i)) as [|Hne]; [done|].
  destruct (lookup_lt_is_Some_2 ms (S i)) as [b Hb]; [lia|].
  destruct (in_order_lookup ms i (S i) m b Ho Hi Hb) as [?|[? ?]]; [lia| |lia].
  destruct b; simpl in *; lia.
Qed.

(** In every run, whatever the remote client answers, the call that
    creates, updates or deletes a web check is the last call issued: there
    is at most one such call and no lookup follows it. *)
Theorem web_check_mutation_is_last {W} (zapi : method → value → W → reply * W)
    (check_mode HAS_ZABBIX_API : bool) (p : params) (s : machine) :
  ∃ cs, calls (main zapi check_mode HAS_ZABBIX_API p s).2 = calls s ++ cs
        ∧ ∀ i m arg, cs !! i = Some (m, arg) →
            m = webcheck_create ∨ m = webcheck_update ∨ m = webcheck_delete →
            length cs = S i.
Proof.
  destruct (main_staged zapi check_mode HAS_ZABBIX_API p s) as (cs & Hc & _ & Ho & _).
  exists cs. split; [done|]. intros i m arg Hi Hm.
  rewrite <-(length_fmap fst cs). apply (in_order_mutation_last _ i m); [done| |].
  - by rewrite list_lookup_fmap, Hi.
  - by destruct Hm as [->|[->| ->]].
Qed.

(** ** Validation before mutation *)

(** Desired steps that do not pass the validation end [create_web_check]
    and [update_web_check] with the validation failure before the create
    or update call: the state of the run is untouched, in check mode and
    outside it. *)
Theorem invalid_steps_issue_no_call {W} (zapi : method → value → W → reply * W)
    (check_mode : bool) (web_check_name host_id application_id : value)
    (entries : list dict) (optional : dict) (s : machine) :
  entries = [] ∨ Exists invalid_entry entries →
  validation_error
    (create_web_check zapi check_mode web_check_name host_id application_id
       (VList (VDict <$> entries)) optional s).1
  ∧ (create_web_check zapi check_mode web_check_name host_id application_id
       (VList (VDict <$> entries)) optional s).2 = s
  ∧ ∀ (web_check_obj : dict) id,
      web_check_obj !! "httptestid" = Some id →
      validation_error
        (update_web_check zapi check_mode (VDict web_check_obj) web_check_name host_id
           application_id (VList (VDict <$> entries)) optional s).1
      ∧ (update_web_check zapi check_mode (VDict web_check_obj) web_check_name host_id
           application_id (VList (VDict <$> entries)) optional s).2 = s.
Proof.
  intros Hbad. destruct (get_steps_fails entries Hbad) as (t & Ht & Hin).
  assert (∀ obj id, get_web_check_params web_check_name host_id application_id
            (VList (VDict <$> entries)) optional obj id
          = Exit (fail_report (Text t []))) as Hps.
  { intros obj id. unfold get_web_check_params. by rewrite Ht. }
  split_and!.
  - unfold create_web_check. rewrite bind_run, lift_run, Hps. by exists t.
  - unfold create_web_check. by rewrite bind_run, lift_run, Hps.
  - intros obj id Hid. unfold update_web_check.
    rewrite bind_run, lift_run. cbn [Py.getitem]. rewrite Hid.
    rewrite bind_run, lift_run, Hps. split; [by exists t|done].
Qed.

(** ** The optional properties *)

(** The loop over a list of optional property names forwards a property
    exactly when its name is in the list and the mapping gives it a value
    other than [None].  So a property outside the list of [main], such as
    the documented [nextcheck], is never forwarded. *)
Theorem optional_properties_whitelist (d : dict) (keys : list string) :
  ∃ r, optional_properties (VDict d) keys ∅ = Ret r
       ∧ (∀ k v, r !! k = Some v ↔ k ∈ keys ∧ d !! k = Some v ∧ v ≠ VNone)
       ∧ (keys = web_scenario_optional_properties_list → r !! "nextcheck" = None).
Proof.
  destruct (optional_properties_dict d keys ∅) as (r & Hr & Hl).
  exists r. split; [done|].
  assert (∀ k v, r !! k = Some v ↔ k ∈ keys ∧ d !! k = Some v ∧ v ≠ VNone) as Hiff.
  { intros k v. rewrite Hl. case_bool_decide as Hk.
    - unfold copied. destruct (d !! k) as [x|]; simpl.
      + destruct x; simpl; rewrite ?lookup_empty; naive_solver.
      + rewrite lookup_empty. naive_solver.
    - rewrite lookup_empty. naive_solver. }
  split; [done|]. intros ->.
  destruct (r !! "nextcheck") as [v|] eqn:Hn; [|done].
  apply Hiff in Hn as [Hin _]. unfold web_scenario_optional_properties_list in Hin.
  set_solver.
Qed.

(** ** Creating, updating and deleting the web check *)

(** The parameters of the create call and of the update call: the
    optional properties override the assembled ones. *)
Definition create_params (web_check_name host_id application_id : value)
    (optional_scenario_values : dict) (steps : list dict) : dict :=
  optional_scenario_values ∪
  <["name":=web_check_name]> (<["applicationid":=application_id]>
  (<["hostid":=host_id]> (<["steps":=VList (VDict <$> steps)]> ∅))).

Definition update_params (web_check_name host_id application_id httptestid : value)
    (optional_scenario_values : dict) (steps : list dict) : dict :=
  optional_scenario_values ∪
  <["httptestid":=httptestid]> (<["name":=web_check_name]>
  (<["applicationid":=application_id]> (<["hostid":=host_id]>
  (<["steps":=VList (VDict <$> steps)]> ∅)))).

Section Mutations.

Context {W : Type}.
Variable zapi : method -> value -> W -> reply * W.

(** The body of the three mutators after their parameters are computed. *)
Lemma mutation_check_mode (m : method) (arg : value) (ok : option (string * text))
    (handler : exn → M unit) (s : machine (W:=W)) :
  try_except
    ((lift (exit_json true None) : M unit);; zapi_call zapi m arg;;
     lift (exit_json true ok))
    handler s
  = (Exit (exit_report true None), s).
Proof. unfold try_except. by rewrite bind_run, lift_run. Qed.

Lemma mutation_returns (m : method) (arg : value) (ok : option (string * text))
    (handler : exn → M unit) (s : machine (W:=W)) v w :
  zapi m arg (remote s) = (Returns v, w) →
  try_except
    ((mret () : M unit);; zapi_call zapi m arg;; lift (exit_json true ok))
    handler s
  = (Exit (exit_report true ok), Machine w (calls s ++ [(m, arg)])).
Proof.
  intros Hz. unfold try_except. rewrite bind_run. cbn [mret M_ret].
  by rewrite bind_run, (zapi_call_returns zapi _ _ _ _ _ Hz).
Qed.

Lemma mutation_throws (m : method) (arg : value) (ok : option (string * text))
    (handler : exn → M unit) (s : machine (W:=W)) e w :
  zapi m arg (remote s) = (Throws e, w) →
  try_except
    ((mret () : M unit);; zapi_call zapi m arg;; lift (exit_json true ok))
    handler s
  = handler (APIError e) (Machine w (calls s ++ [(m, arg)])).
Proof.
  intros Hz. unfold try_except. rewrite bind_run. cbn [mret M_ret].
  by rewrite bind_run, (zapi_call_throws zapi _ _ _ _ _ Hz).
Qed.

End Mutations.

Lemma get_web_check_params_create (web_check_name host_id application_id
    web_check_steps : value) (optional : dict) (steps : list dict) :
  get_steps web_check_steps = Ret steps →
  get_web_check_params web_check_name host_id application_id web_check_steps optional
    VNone VNone
  = Ret (create_params web_check_name host_id application_id optional steps).
Proof. intros Hs. unfold get_web_check_params. by rewrite Hs. Qed.

Lemma get_web_check_params_update (web_check_name host_id application_id : value)
    (entries : list dict) (optional web_check_obj : dict) (olds : list dict)
    (httptestid : value) (steps : list dict) :
  Py.truthy httptestid = true →
  web_check_obj !! "steps" = Some (VList (VDict <$> olds)) → olds ≠ [] →
  Forall remote_step olds →
  get_steps (VList (VDict <$> entries)) = Ret steps →
  get_web_check_params web_check_name host_id application_id
    (VList (VDict <$> entries)) optional (VDict web_check_obj) httptestid
  = Ret (update_params web_check_name host_id application_id httptestid optional
           (reconcileSteps olds steps httptestid)).
Proof.
  intros Hid Hold Hne Holds Hsteps.
  destruct (get_steps_ret_inv _ _ Hsteps) as (_ & Hvalid & Hnorm).
  assert (Forall desired_step steps) as Hdesired.
  { apply Forall_forall. intros x Hx. apply list_elem_of_lookup in Hx as [i Hi].
    destruct (Forall2_lookup_r _ _ _ _ _ Hnorm Hi) as (e & He & Hes).
    eapply normalized_desired; [|done].
    rewrite Forall_forall in Hvalid. apply Hvalid. by eapply list_elem_of_lookup_2. }
  unfold get_web_check_params. rewrite Hsteps. cbn [mbind outcome_bind].
  rewrite Hid. unfold Py.getitem. rewrite Hold. cbn [mbind outcome_bind].
  assert (Py.truthy (VList (VDict <$> olds)) = true) as ->.
  { destruct olds; [done|]. reflexivity. }
  unfold get_replace_steps. by rewrite replace_steps_loop_spec.
Qed.




(** [create_web_check] with desired steps that pass the validation: the
    create call carries the assembled parameters with the normalized
    steps.  In check mode the run ends with [changed=True] and no call;
    otherwise a result of the client, whatever it is, ends it with
    [changed=True] and the message of the addition, and an exception of
    the client with the message of the failed creation. *)
Theorem create_web_check_outcomes {W} (zapi : method → value → W → reply * W)
    (web_check_name host_id application_id web_check_steps : value) (optional : dict)
    (steps : list dict) (s : machine) :
  get_steps web_check_steps = Ret steps →
  let ps := create_params web_check_name host_id application_id optional steps in
  let after w := Machine w (calls s ++ [(webcheck_create, VDict ps)]) in
  create_web_check zapi true web_check_name host_id application_id web_check_steps
    optional s = (Exit (exit_report true None), s)
  ∧ (∀ v w,
       zapi webcheck_create (VDict ps) (remote s) = (Returns v, w) →
       create_web_check zapi false web_check_name host_id application_id web_check_steps
         optional s
       = (Exit (exit_report true
                  (Some ("result", Text Successfully_added_WebCheck [FVal web_check_name]))),
          after w))
  ∧ (∀ e w,
       zapi webcheck_create (VDict ps) (remote s) = (Throws e, w) →
       create_web_check zapi false web_check_name host_id application_id web_check_steps
         optional s
       = (Exit (fail_report (Text Failed_to_create_WebCheck
                               [FVal web_check_name; FExn (APIError e)])), after w)).
Proof.
  intros Hsteps ps after.
  pose proof (get_web_check_params_create web_check_name host_id application_id
                web_check_steps optional steps Hsteps) as Hps.
  split_and!.
  - unfold create_web_check. rewrite bind_run, lift_run, Hps.
    apply mutation_check_mode.
  - intros v w Hz. unfold create_web_check. rewrite bind_run, lift_run, Hps.
    by rewrite (mutation_returns zapi _ _ _ _ _ _ _ Hz).
  - intros e w Hz. unfold create_web_check. rewrite bind_run, lift_run, Hps.
    by rewrite (mutation_throws zapi _ _ _ _ _ _ _ Hz).
Qed.

(** [update_web_check] on an existing web check with a list of remote
    steps and desired steps that pass the validation: the update call
    carries the identifier of the web check and the reconciled steps.  In
    check mode the run ends with [changed=True] and no call; otherwise a
    result of the client ends it with [changed=True], and an exception of
    the client with the failure; both messages print the parameters sent,
    not the name. *)
Theorem update_web_check_outcomes {W} (zapi : method → value → W → reply * W)
    (web_check_name host_id application_id : value) (entries : list dict)
    (optional web_check_obj : dict) (olds : list dict) (httptestid : value)
    (steps : list dict) (s : machine) :
  web_check_obj !! "httptestid" = Some httptestid → Py.truthy httptestid = true →
  web_check_obj !! "steps" = Some (VList (VDict <$> olds)) → olds ≠ [] →
  Forall remote_step olds →
  get_steps (VList (VDict <$> entries)) = Ret steps →
  let ps := update_params web_check_name host_id application_id httptestid optional
              (reconcileSteps olds steps httptestid) in
  let after w := Machine w (calls s ++ [(webcheck_update, VDict ps)]) in
  update_web_check zapi true (VDict web_check_obj) web_check_name host_id application_id
    (VList (VDict <$> entries)) optional s = (Exit (exit_report true None), s)
  ∧ (∀ v w,
       zapi webcheck_update (VDict ps) (remote s) = (Returns v, w) →
       update_web_check zapi false (VDict web_check_obj) web_check_name host_id
         application_id (VList (VDict <$> entries)) optional s
       = (Exit (exit_report true
                  (Some ("result", Text Successfully_updated_WebCheck [FVal (VDict ps)]))),
          after w))
  ∧ (∀ e w,
       zapi webcheck_update (VDict ps) (remote s) = (Throws e, w) →
       update_web_check zapi false (VDict web_check_obj) web_check_name host_id
         application_id (VList (VDict <$> entries)) optional s
       = (Exit (fail_report (Text Failed_to_updated_WebCheck
                               [FVal (VDict ps); FExn (APIError e)])), after w)).
Proof.
  intros Hid Htruthy Hold Hne Holds Hsteps ps after.
  pose proof (get_web_check_params_update web_check_name host_id application_id entries
                optional web_check_obj olds httptestid steps Htruthy Hold Hne Holds Hsteps)
    as Hps.
  assert (∀ cm, update_web_check zapi cm (VDict web_check_obj) web_check_name host_id
                  application_id (VList (VDict <$> entries)) optional s
                = try_except
                    ((if cm then lift (exit_json true None) else mret ());;
                     zapi_call zapi webcheck_update (VDict ps);;
                     lift (exit_json true
                             (Some ("result", Text Successfully_updated_WebCheck
                                                [FVal (VDict ps)]))))
                    (fun e => lift (fail_json Failed_to_updated_WebCheck
                                      [FVal (VDict ps); FExn e])) s) as Hstep.
  { intros cm. unfold update_web_check. rewrite bind_run, lift_run.
    cbn [Py.getitem]. rewrite Hid. by rewrite bind_run, lift_run, Hps. }
  split_and!.
  - rewrite Hstep. apply mutation_check_mode.
  - intros v w Hz. rewrite Hstep. by rewrite (mutation_returns zapi _ _ _ _ _ _ _ Hz).
  - intros e w Hz. rewrite Hstep. by rewrite (mutation_throws zapi _ _ _ _ _ _ _ Hz).
Qed.

(** [delete_web_check] on a record with an identifier and a name: in check
    mode the run ends with [changed=True] and no call; otherwise the
    delete call carries the one identifier, a result of the client ends
    the run with [changed=True] and the message of the deletion, and an
    exception of the client with the failure.  A record that lacks the
    identifier or the name raises a [KeyError] before any call. *)
Theorem delete_web_check_outcomes {W} (zapi : method → value → W → reply * W)
    (webCheckObj : dict) (s : machine) :
  (∀ webCheckId webCheckName,
     webCheckObj !! "httptestid" = Some webCheckId →
     webCheckObj !! "name" = Some webCheckName →
     let after w := Machine w (calls s ++ [(webcheck_delete, VList [webCheckId])]) in
     delete_web_check zapi true (VDict webCheckObj) s = (Exit (exit_report true None), s)
     ∧ (∀ v w,
          zapi webcheck_delete (VList [webCheckId]) (remote s) = (Returns v, w) →
          delete_web_check zapi false (VDict webCheckObj) s
          = (Exit (exit_report true
                     (Some ("result", Text Successfully_deleted_WebCheck
                                        [FVal webCheckName]))), after w))
     ∧ (∀ e w,
          zapi webcheck_delete (VList [webCheckId]) (remote s) = (Throws e, w) →
          delete_web_check zapi false (VDict webCheckObj) s
          = (Exit (fail_report (Text Failed_to_delete_WebCheck
                                  [FVal webCheckName; FExn (APIError e)])), after w)))
  ∧ (∀ check_mode,
       webCheckObj !! "httptestid" = None ∨ webCheckObj !! "name" = None →
       ∃ key, delete_web_check zapi check_mode (VDict webCheckObj) s
              = (Raise (KeyError key), s)).
Proof.
  split.
  - intros webCheckId webCheckName Hid Hname after.
    assert (∀ cm, delete_web_check zapi cm (VDict webCheckObj) s
                  = try_except
                      ((if cm then lift (exit_json true None) else mret ());;
                       zapi_call zapi webcheck_delete (VList [webCheckId]);;
                       lift (exit_json true
                               (Some ("result", Text Successfully_deleted_WebCheck
                                                  [FVal webCheckName]))))
                      (fun e => lift (fail_json Failed_to_delete_WebCheck
                                        [FVal webCheckName; FExn e])) s) as Hstep.
    { intros cm. unfold delete_web_check. rewrite bind_run, lift_run.
      cbn [Py.getitem]. rewrite Hid. rewrite bind_run, lift_run.
      cbn [Py.getitem]. by rewrite Hname. }
    split_and!.
    + rewrite Hstep. apply mutation_check_mode.
    + intros v w Hz. rewrite Hstep. by rewrite (mutation_returns zapi _ _ _ _ _ _ _ Hz).
    + intros e w Hz. rewrite Hstep. by rewrite (mutation_throws zapi _ _ _ _ _ _ _ Hz).
  - intros cm Hmiss. unfold delete_web_check. rewrite bind_run, lift_run.
    cbn [Py.getitem]. destruct (webCheckObj !! "httptestid") as [id|] eqn:Hid.
    + destruct Hmiss as [|Hname]; [done|]. exists "name".
      rewrite bind_run, lift_run. cbn [Py.getitem]. by rewrite Hname.
    + by exists "httptestid".
Qed.

(** The last branch of the type test of [get_web_check_params] cannot
    succeed: when the existing web check carries steps that are neither a
    list nor a mapping, [update_web_check] raises a [TypeError] outside
    its [try], so the run crashes without a report and without a call, in
    check mode and outside it. *)
Theorem update_web_check_malformed_steps {W} (zapi : method → value → W → reply * W)
    (check_mode : bool) (web_check_name host_id application_id : value)
    (entries : list dict) (optional web_check_obj : dict) (old httptestid : value)
    (steps : list dict) (s : machine) :
  web_check_obj !! "httptestid" = Some httptestid → Py.truthy httptestid = true →
  web_check_obj !! "steps" = Some old → Py.truthy old = true →
  Py.is_list old = false → Py.is_dict old = false →
  get_steps (VList (VDict <$> entries)) = Ret steps →
  update_web_check zapi check_mode (VDict web_check_obj) web_check_name host_id
    application_id (VList (VDict <$> entries)) optional s
  = (Raise TypeError, s).
Proof.
  intros Hid Htruthy Hold Ht Hl Hd Hsteps.
  destruct (get_steps_ret_inv _ _ Hsteps) as (Hne & _ & Hnorm).
  destruct steps as [|st steps].
  { apply Forall2_nil_inv_r in Hnorm. done. }
  unfold update_web_check. rewrite bind_run, lift_run.
  cbn [Py.getitem]. rewrite Hid. rewrite bind_run, lift_run.
  unfold get_web_check_params. rewrite Hsteps. cbn [mbind outcome_bind].
  rewrite Htruthy. unfold Py.getitem. rewrite Hold. cbn [mbind outcome_bind].
  rewrite Ht. by destruct old.
Qed.

(** ** Which calls a run may issue *)

(** The calls open to a run, by the state it is asked for: a run for
    [state=absent] may log in, look up the host and the web check, and
    delete; a run for any other state may do everything but delete. *)
Definition allowed_in (absent : bool) (m : method) : bool :=
  if absent then
    match m with
    | user_login | host_get | webcheck_get | webcheck_delete => true
    | _ => false
    end
  else
    match m with
    | webcheck_delete => false
    | _ => true
    end.

Section Issues.

Context {W : Type}.
Variable zapi : method -> value -> W -> reply * W.

(** [m] issues calls of the methods [allowed] only. *)
Definition issues {A} (allowed : method → bool) (m : M (W:=W) A) : Prop :=
  ∀ s, ∃ cs, calls (m s).2 = calls s ++ cs ∧ Forall (λ c : call, allowed c.1 = true) cs.

Lemma issues_silent {A} allowed (m : M (W:=W) A) : silent m → issues allowed m.
Proof. intros Hm s. exists []. by rewrite Hm, app_nil_r. Qed.

Lemma issues_bind {A B} allowed (m : M (W:=W) A) (f : A → M B) :
  issues allowed m → (∀ a, issues allowed (f a)) → issues allowed (m ≫= f).
Proof.
  intros Hm Hf s. rewrite bind_run. destruct (Hm s) as (cs & Hc & Hall).
  destruct (m s) as [[a|r|e] s']; simpl in *; [|by exists cs..].
  destruct (Hf a s') as (cs' & Hc' & Hall'). exists (cs ++ cs').
  split; [by rewrite Hc', Hc, app_assoc|by apply Forall_app].
Qed.

Lemma issues_try_except {A} allowed (body : M (W:=W) A) handler :
  issues allowed body → (∀ e, silent (handler e)) →
  issues allowed (try_except body handler).
Proof.
  intros Hb Hh s. unfold try_except. destruct (Hb s) as (cs & Hc & Hall).
  exists cs. destruct (body s) as [[a|r|e] s']; simpl in *; [done..|].
  by rewrite Hh.
Qed.

Lemma issues_zapi_call (allowed : method → bool) m arg :
  allowed m = true → issues allowed (zapi_call zapi m arg).
Proof.
  intros Hm s. exists [(m, arg)]. unfold zapi_call.
  destruct (zapi m arg (remote s)) as [[v|e] w]; simpl; by repeat constructor.
Qed.

Ltac quiet :=
  repeat first
    [ apply silent_lift | apply silent_ret
    | apply silent_bind; [|intros ?]
    | match goal with
      | |- silent (if ?b then _ else _) => destruct b
      end ].

Ltac issues_auto :=
  repeat first
    [ apply issues_silent; solve [quiet]
    | apply issues_zapi_call; reflexivity
    | apply issues_try_except; [|intros ?; apply silent_lift]
    | apply issues_bind; [|intros ?]
    | match goal with
      | |- issues _ (if ?b then _ else _) => destruct b
      end ].

Lemma get_host_id_issues allowed host_name :
  allowed host_get = true → issues allowed (get_host_id zapi host_name).
Proof.
  intros Ha. unfold get_host_id. apply issues_try_except; [|intros ?; apply silent_lift].
  apply issues_bind; [by apply issues_zapi_call|intros ?]. issues_auto.
Qed.

Lemma get_web_check_issues allowed web_check_name host_id :
  allowed webcheck_get = true → issues allowed (get_web_check zapi web_check_name host_id).
Proof.
  intros Ha. unfold get_web_check. apply issues_try_except; [|intros ?; apply silent_lift].
  apply issues_bind; [by apply issues_zapi_call|intros ?]. issues_auto.
Qed.

Lemma main_issues check_mode HAS_ZABBIX_API p :
  issues (allowed_in (Py.eq (state p) (VStr "absent")))
    (main zapi check_mode HAS_ZABBIX_API p).
Proof.
  unfold main.
  apply issues_bind; [issues_auto|intros _].
  apply issues_bind; [issues_auto|intros b].
  apply issues_bind; [issues_auto|intros web_check_name].
  apply issues_bind.
  { apply issues_try_except; [|intros ?; apply silent_lift].
    apply issues_zapi_call. by destruct (Py.eq _ _). }
  intros _.
  apply issues_bind; [issues_auto|intros host_name].
  apply issues_bind; [issues_auto|intros _].
  apply issues_bind; [apply get_host_id_issues; by destruct (Py.eq _ _)|intros host_id].
  apply issues_bind;
    [apply get_web_check_issues; by destruct (Py.eq _ _)|intros web_check_obj].
  destruct (Py.eq (state p) (VStr "absent")).
  - unfold delete_web_check. issues_auto.
  - apply issues_bind; [issues_auto|intros application_name].
    apply issues_bind; [issues_auto|intros _].
    apply issues_bind; [by apply get_host_id_issues|intros host_id'].
    unfold get_application_id, create_application, update_web_check, create_web_check.
    issues_auto.
Qed.

End Issues.

(** The state asked for selects the calls of a run, whatever the remote
    client answers: with [state=absent] the run issues nothing but the
    login, the host lookup, the web-check lookup and a delete call, so it
    never reads or creates an application and never creates or updates a
    web check; with any other value of [state] it never issues a delete
    call. *)
Theorem state_selects_the_calls {W} (zapi : method → value → W → reply * W)
    (check_mode HAS_ZABBIX_API : bool) (p : params) (s : machine) :
  ∃ cs, calls (main zapi check_mode HAS_ZABBIX_API p s).2 = calls s ++ cs
        ∧ ∀ m arg, (m, arg) ∈ cs →
            if Py.eq (state p) (VStr "absent")
            then m ∈ [user_login; host_get; webcheck_get; webcheck_delete]
            else m ≠ webcheck_delete.
Proof.
  destruct (main_issues zapi check_mode HAS_ZABBIX_API p s) as (cs & Hc & Hall).
  exists cs. split; [done|]. intros m arg Hin.
  rewrite Forall_forall in Hall. specialize (Hall _ Hin). simpl in Hall.
  destruct (Py.eq (state p) (VStr "absent")); destruct m; simpl in Hall;
    try discriminate; try set_solver.
Qed.

(** ** More on the step normalizer *)

(** The failure an invalid entry is reported with: the name is tested
    before the url, and the url before the number. *)
Definition first_failure (e : dict) : template :=
  if missing e "name" then Step_name_required
  else if missing e "url" then Step_url_required
  else Step_no_required.

Lemma get_step_first_failure e :
  invalid_entry e → get_step (VDict e) = Exit (fail_report (Text (first_failure e) [])).
Proof.
  unfold invalid_entry, get_step, first_failure. intros Hinv.
  rewrite !required_property_dict. unfold missing, fail_json in *.
  destruct (e !! "name") as [n|]; simpl; [destruct (Py.truthy n); simpl|]; try done.
  destruct (e !! "url") as [u|]; simpl; [destruct (Py.truthy u); simpl|]; try done.
  destruct (e !! "number") as [m|]; simpl; [destruct (Py.truthy m); simpl|]; try done.
  naive_solver.
Qed.

(** The normalizer stops at the first invalid entry, with the failure of
    the first required property this entry lacks; the entries after it
    are not looked at, whatever they are. *)
Theorem get_steps_first_failure (valids : list dict) (e : dict) (rest : list value) :
  Forall valid_entry valids → invalid_entry e →
  get_steps (VList ((VDict <$> valids) ++ VDict e :: rest))
  = Exit (fail_report (Text (first_failure e) [])).
Proof.
  intros Hvalid Hinv. unfold get_steps.
  assert (Py.truthy (VList ((VDict <$> valids) ++ VDict e :: rest)) = true) as ->.
  { simpl. rewrite length_app. simpl. by rewrite Nat.add_succ_r. }
  cbn [Py.iter mbind outcome_bind].
  generalize (@nil dict) as acc.
  induction Hvalid as [|v valids Hv _ IH]; intros acc.
  - cbn [fmap list_fmap app get_steps_loop]. by rewrite get_step_first_failure.
  - rewrite fmap_cons. cbn [app get_steps_loop].
    destruct (get_step_valid v Hv) as (s & -> & _). cbn [mbind outcome_bind]. apply IH.
Qed.

Lemma get_step_mapping v s : get_step v = Ret s → ∃ e, v = VDict e.
Proof.
  destruct v as [| | |str|l|e]; [..|by exists e]; unfold get_step, required_property;
    cbn [Py.contains mbind outcome_bind]; try done.
  - by destruct (Py.is_substring "name" str);
      cbn [Py.getitem mbind outcome_bind]; unfold fail_json.
  - by destruct (existsb (Py.eq (VStr "name")) l);
      cbn [Py.getitem mbind outcome_bind]; unfold fail_json.
Qed.

Lemma get_steps_loop_mappings items acc out :
  get_steps_loop items acc = Ret out → ∃ entries, items = VDict <$> entries.
Proof.
  revert acc. induction items as [|v items IH]; intros acc Hret.
  - by exists [].
  - cbn [get_steps_loop] in Hret.
    destruct (get_step v) as [s| |] eqn:Hs; [|done..].
    destruct (get_step_mapping v s Hs) as (e & ->).
    cbn [mbind outcome_bind] in Hret.
    destruct (IH _ Hret) as (entries & ->). by exists (e :: entries).
Qed.

(** The normalizer returns steps for one shape of input only: a list that
    is not empty and whose entries are all mappings with a non-empty name,
    url and number.  A string, a mapping, a number or a list with an entry
    of another kind never gives steps. *)
Theorem get_steps_returns_only_on_mappings (web_check_steps : value) (steps : list dict) :
  get_steps web_check_steps = Ret steps →
  ∃ entries, web_check_steps = VList (VDict <$> entries)
             ∧ entries ≠ [] ∧ Forall valid_entry entries
             ∧ Forall2 normalized entries steps.
Proof.
  intros Hret. unfold get_steps in Hret.
  destruct (Py.truthy web_check_steps) eqn:Ht; [|done].
  destruct web_check_steps as [|b|z|str|l|d]; cbn [Py.iter mbind outcome_bind] in Hret;
    try done.
  - destruct str as [|c str]; [done|]. cbn [Py.chars] in Hret.
    apply get_steps_loop_mappings in Hret as (entries & Heq).
    by destruct entries.
  - destruct (get_steps_loop_mappings _ _ _ Hret) as (entries & ->).
    exists entries. split; [done|]. apply get_steps_ret_inv.
    unfold get_steps. by rewrite Ht.
  - destruct (keys_in_order d) as [|k ks] eqn:Hd.
    + pose proof (Permutation_length (keys_in_order_perm d)) as Hl.
      rewrite Hd, length_fmap, length_map_to_list in Hl. simpl in Ht, Hl.
      by rewrite <-Hl in Ht.
    + apply get_steps_loop_mappings in Hret as (entries & Heq).
      by destruct entries.
Qed.

(** ** The paths through [main] *)


(** [main] from the test of [state] on. *)
Definition dispatch {W} (zapi : method → value → W → reply * W) (check_mode : bool)
    (p : params) (web_check_name host_name web_check_obj : value) : M unit :=
  if Py.eq (state p) (VStr "absent") then
    if Py.truthy web_check_obj then
      delete_web_check zapi check_mode web_check_obj
    else
      lift (exit_json false
              (Some ("msg", Text WebCheck_does_not_exist [FVal web_check_name])))
  else
    application_name ← lift (get_value_by_key (web_check p) "application_name");
    (if Py.truthy application_name then mret ()
     else lift (fail_json Application_name_required []));;
    host_id ← get_host_id zapi host_name;
    application_id ← get_application_id zapi check_mode host_id application_name;
    web_check_steps ← lift (get_value_by_key (web_check p) "steps");
    scenario_optional_properties ←
      lift (optional_properties (web_check p) web_scenario_optional_properties_list ∅);
    if Py.truthy web_check_obj then
      update_web_check zapi check_mode web_check_obj web_check_name host_id application_id
        web_check_steps scenario_optional_properties
    else
      create_web_check zapi check_mode web_check_name host_id application_id
        web_check_steps scenario_optional_properties.

(** The state of a run after the login and the two lookups. *)
Definition after_lookups {W} (p : params) (web_check_name host_name hostid : value)
    (s : machine (W:=W)) (w : W) : machine :=
  Machine w (calls s ++ [(user_login, login_args p);
                         (host_get, host_get_params host_name);
                         (webcheck_get, webcheck_get_params web_check_name hostid)]).

Section Paths.

Context {W : Type}.
Variable zapi : method -> value -> W -> reply * W.
Variable check_mode : bool.

Lemma get_web_check_list web_check_name host_id (s : machine (W:=W)) recs w :
  zapi webcheck_get (webcheck_get_params web_check_name host_id) (remote s)
  = (Returns (VList recs), w) →
  get_web_check zapi web_check_name host_id s
  = (Ret (default VNone (head recs)),
     Machine w (calls s ++ [(webcheck_get, webcheck_get_params web_check_name host_id)])).
Proof.
  intros Hz. unfold get_web_check, try_except. rewrite bind_run.
  pose proof (zapi_call_returns _ _ _ _ _ _ Hz) as Hc. unfold webcheck_get_params in Hc.
  rewrite Hc. by destruct recs.
Qed.

Lemma get_application_id_found host_id application_name (s : machine (W:=W))
    (a : dict) rest applicationid w :
  zapi application_get (application_get_params host_id application_name) (remote s)
  = (Returns (VList (VDict a :: rest)), w) →
  a !! "applicationid" = Some applicationid →
  get_application_id zapi check_mode host_id application_name s
  = (Ret applicationid,
     Machine w (calls s ++
                  [(application_get, application_get_params host_id application_name)])).
Proof.
  intros Hz Hid. unfold get_application_id, try_except.
  pose proof (zapi_call_returns zapi _ _ _ _ _ Hz) as Hc.
  unfold application_get_params in Hc.
  rewrite bind_run, Hc. rewrite bind_run, lift_run. cbn [Py.len length].
  cbn [Nat.ltb Nat.leb]. rewrite bind_run, lift_run. cbn [Py.first].
  rewrite lift_run. cbn [Py.getitem]. by rewrite Hid.
Qed.

(** A run that gets through the login and the two lookups. *)
Variables (p : params) (d : dict) (web_check_name host_name : value).
Variables (s : machine (W:=W)) (session : value) (h : dict) (hosts : list value).
Variables (hostid : value) (recs : list value) (w1 w2 w3 : W).

Hypothesis Hweb_check : web_check p = VDict d.
Hypothesis Hname : d !! "web_check_name" = Some web_check_name.
Hypothesis Hhost_name : d !! "host_name" = Some host_name.
Hypothesis Htruthy : Py.truthy host_name = true.
Hypothesis Hlogin : zapi user_login (login_args p) (remote s) = (Returns session, w1).
Hypothesis Hhost :
  zapi host_get (host_get_params host_name) w1 = (Returns (VList (VDict h :: hosts)), w2).
Hypothesis Hhostid : h !! "hostid" = Some hostid.
Hypothesis Hget :
  zapi webcheck_get (webcheck_get_params web_check_name hostid) w2
  = (Returns (VList recs), w3).

Lemma main_lookups :
  main zapi check_mode true p s
  = dispatch zapi check_mode p web_check_name host_name (default VNone (head recs))
      (after_lookups p web_check_name host_name hostid s w3).
Proof.
  pose proof Hlogin as Hl. unfold login_args in Hl.
  unfold main, dispatch. rewrite Hweb_check.
  rewrite (bind_ret_run _ _ s () s) by done.
  rewrite (bind_ret_run _ _ s true s)
    by (by rewrite lift_run, (contains_present d _ web_check_name)).
  rewrite (bind_ret_run _ _ s web_check_name s)
    by (by rewrite lift_run, (getitem_present d _ web_check_name)).
  erewrite bind_ret_run;
    [|unfold try_except; by rewrite (zapi_call_returns zapi _ _ _ _ _ Hl)].
  erewrite bind_ret_run;
    [|by rewrite lift_run, (get_value_by_key_present d _ host_name)].
  rewrite Htruthy. erewrite bind_ret_run by done.
  erewrite bind_ret_run; [|by apply (get_host_id_found zapi host_name _ h hosts hostid w2)].
  erewrite bind_ret_run; [|by apply (get_web_check_list web_check_name hostid _ recs w3)].
  unfold after_lookups. simpl. by rewrite <-!app_assoc.
Qed.

(** With [state=absent] and a web-check lookup whose first record is
    truthy, [main] hands that record to [delete_web_check] right after the
    lookups: it reads neither the application name nor the steps, and the
    records after the first play no part. *)
Theorem main_absent_deletes :
  Py.eq (state p) (VStr "absent") = true →
  Py.truthy (default VNone (head recs)) = true →
  main zapi check_mode true p s
  = delete_web_check zapi check_mode (default VNone (head recs))
      (after_lookups p web_check_name host_name hostid s w3).
Proof.
  intros Hstate Hobj. rewrite main_lookups. unfold dispatch. by rewrite Hstate, Hobj.
Qed.

(** With a state other than [absent], an application name that is missing
    or empty ends the run with its validation failure after the login and
    the two lookups, whether the web check exists or not. *)
Theorem main_application_name_required :
  Py.eq (state p) (VStr "absent") = false →
  Py.truthy (default VNone (d !! "application_name")) = false →
  main zapi check_mode true p s
  = (Exit (fail_report (Text Application_name_required [])),
     after_lookups p web_check_name host_name hostid s w3).
Proof.
  intros Hstate Hfalsy. rewrite main_lookups. unfold dispatch.
  rewrite Hstate, Hweb_check.
  erewrite bind_ret_run; [|by rewrite lift_run, get_value_by_key_dict].
  rewrite Hfalsy. by rewrite bind_run.
Qed.

(** With a state other than [absent], [main] looks the host up a second
    time and resolves the application with the identifier of this second
    lookup; when the application exists, it then hands the web check over
    to [update_web_check] if the first lookup gave a truthy record and to
    [create_web_check] otherwise, with the second host identifier, the
    application identifier, the raw steps and the whitelisted optional
    properties. *)
Theorem main_present_dispatch (application_name : value) (h' a : dict)
    (hosts' apps : list value) (hostid' application_id : value) (w4 w5 : W) :
  Py.eq (state p) (VStr "absent") = false →
  d !! "application_name" = Some application_name →
  Py.truthy application_name = true →
  zapi host_get (host_get_params host_name) w3
  = (Returns (VList (VDict h' :: hosts')), w4) →
  h' !! "hostid" = Some hostid' →
  zapi application_get (application_get_params hostid' application_name) w4
  = (Returns (VList (VDict a :: apps)), w5) →
  a !! "applicationid" = Some application_id →
  let web_check_obj := default VNone (head recs) in
  let web_check_steps := default VNone (d !! "steps") in
  let s5 :=
    Machine w5 (calls (after_lookups p web_check_name host_name hostid s w3)
                ++ [(host_get, host_get_params host_name);
                    (application_get, application_get_params hostid' application_name)]) in
  ∃ optional,
    optional_properties (VDict d) web_scenario_optional_properties_list ∅ = Ret optional
    ∧ main zapi check_mode true p s
      = if Py.truthy web_check_obj then
          update_web_check zapi check_mode web_check_obj web_check_name hostid'
            application_id web_check_steps optional s5
        else
          create_web_check zapi check_mode web_check_name hostid' application_id
            web_check_steps optional s5.
Proof.
  intros Hstate Happ Happ_truthy Hhost' Hhostid' Happ_get Happ_id obj steps s5.
  subst obj steps s5.
  destruct (optional_properties_dict d web_scenario_optional_properties_list ∅)
    as (optional & Hopt & _).
  exists optional. split; [done|].
  rewrite main_lookups. unfold dispatch. rewrite Hstate, Hweb_check.
  erewrite bind_ret_run;
    [|by rewrite lift_run, (get_value_by_key_present d _ application_name)].
  rewrite Happ_truthy. erewrite bind_ret_run by done.
  erewrite bind_ret_run;
    [|by apply (get_host_id_found zapi host_name _ h' hosts' hostid' w4)].
  erewrite bind_ret_run;
    [|by apply (get_application_id_found hostid' application_name _ a apps
                  application_id w5)].
  erewrite bind_ret_run; [|by rewrite lift_run, get_value_by_key_dict].
  erewrite bind_ret_run; [|by rewrite lift_run, Hopt].
  cbn [calls]. rewrite <-app_assoc.
  by destruct (Py.truthy (default VNone (head recs))).
Qed.

End Paths.

(** ** The scan of the existing steps *)

(** The inner loop of [get_replace_steps] breaks at the first existing
    step with the url of the desired step: the steps after it are not read,
    whatever they are.  When that step has a remote step identifier, the
    desired step takes it together with the parent identifier; when it has
    none, the loop raises a [KeyError]. *)
Theorem scan_old_steps_breaks (new_webcheck_step : dict) (before : list dict)
    (old_webcheck_step : dict) (rest : list value) (httptestid u ou : value) :
  new_webcheck_step !! "url" = Some u →
  Forall (λ q : dict, ∃ qu, q !! "url" = Some qu ∧ Py.eq u qu = false) before →
  old_webcheck_step !! "url" = Some ou → Py.eq u ou = true →
  scan_old_steps new_webcheck_step
    ((VDict <$> before) ++ VDict old_webcheck_step :: rest) httptestid
  = match old_webcheck_step !! "webstepid" with
    | Some webstepid =>
        Ret (Some (<["httptestid":=httptestid]>
                     (<["webstepid":=webstepid]> new_webcheck_step)))
    | None => Raise (KeyError "webstepid")
    end.
Proof.
  intros Hu Hbefore Hou Heq.
  induction Hbefore as [|q before (qu & Hqu & Hne) _ IH].
  - cbn [fmap list_fmap app scan_old_steps Py.getitem]. rewrite Hu, Hou.
    cbn [mbind outcome_bind]. rewrite Heq.
    by destruct (old_webcheck_step !! "webstepid").
  - rewrite fmap_cons. cbn [app scan_old_steps Py.getitem]. rewrite Hu, Hqu.
    cbn [mbind outcome_bind]. by rewrite Hne.
Qed.

(** ** Two runs in succession *)











End Embedding.

(** * The module on concrete inputs

    The examples run the module with the keys of a dictionary enumerated
    in ascending order. *)
#[local] Instance ascending_order : DictOrder :=
  {| keys_in_order d := merge_sort (λ a b, String.leb a b) (map_to_list d).*1;
     keys_in_order_perm d := merge_sort_Permutation _ _ |}.

Definition ex_entry1 : dict :=
  <["name":=VStr "s1"]> (<["url":=VStr "http://a"]> (<["number":=VInt 1]>
  (<["required":=VInt 0]> (<["timeout":=VNone]> ∅)))).

Definition ex_entry_zero : dict :=
  <["name":=VStr "s1"]> (<["url":=VStr "http://a"]> (<["number":=VInt 0]> ∅)).

Example get_steps_ex1 :
  get_steps (VList [VDict ex_entry1]) =
  Ret [ <["name":=VStr "s1"]> (<["url":=VStr "http://a"]> (<["no":=VInt 1]>
        (<["required":=VInt 0]> ∅))) ].
Proof. vm_compute. reflexivity. Qed.

Lemma get_steps_validation_witness :
  validation_error (get_steps (VList (VDict <$> [ex_entry_zero])))
  ∧ ∃ out, get_steps (VList (VDict <$> [ex_entry1])) = Ret out
           ∧ Forall2 normalized [ex_entry1] out.
Proof.
  split.
  - apply (proj2 get_steps_validation [ex_entry_zero]). right. left.
    right. right. reflexivity.
  - destruct (proj2 (proj2 get_steps_validation [ex_entry1])) as (out & H1 & H2 & _).
    + intros [H|H]; [discriminate|].
      apply Exists_cons in H as [[H|[H|H]]|H]; [discriminate..|inversion H].
    + eauto.
Defined.

Definition ex_entry_falsy_optional : dict :=
  <["name":=VStr "s1"]> (<["url":=VStr "http://a"]> (<["number":=VInt 1]>
  (<["required":=VInt 0]> (<["posts":=VStr ""]> ∅)))).

Lemma get_steps_asymmetric_presence_witness :
  validation_error (get_steps (VList (VDict <$> [ex_entry_zero])))
  ∧ ∃ s, [ <["name":=VStr "s1"]> (<["url":=VStr "http://a"]> (<["no":=VInt 1]>
           (<["required":=VInt 0]> (<["posts":=VStr ""]> (∅ : dict))))) ] !! 0%nat
         = Some s ∧ s !! "posts" = Some (VStr "").
Proof.
  split.
  - apply (proj1 get_steps_asymmetric_presence [ex_entry_zero] ex_entry_zero
             "number" (VInt 0)).
    + apply list_elem_of_singleton. reflexivity.
    + apply list_elem_of_In. simpl. auto.
    + reflexivity.
    + reflexivity.
  - apply (proj2 get_steps_asymmetric_presence [ex_entry_falsy_optional] _ 0%nat
             ex_entry_falsy_optional "posts" (VStr "")).
    + vm_compute. reflexivity.
    + reflexivity.
    + apply list_elem_of_In. simpl. auto.
    + reflexivity.
    + reflexivity.
    + discriminate.
Defined.

(** The scenario of the specification: existing steps for urls a and b,
    desired steps for urls b and c. *)
Definition ex_old_a : dict := <["url":=VStr "http://a"]> (<["webstepid":=VInt 101]> ∅).
Definition ex_old_b : dict := <["url":=VStr "http://b"]> (<["webstepid":=VInt 102]> ∅).
Definition ex_new_b : dict :=
  <["name":=VStr "sb"]> (<["url":=VStr "http://b"]> (<["no":=VInt 1]> ∅)).
Definition ex_new_c : dict :=
  <["name":=VStr "sc"]> (<["url":=VStr "http://c"]> (<["no":=VInt 2]> ∅)).

Example get_replace_steps_ex :
  get_replace_steps (VList [VDict ex_old_a; VDict ex_old_b]) [ex_new_b; ex_new_c] (VInt 7)
  = Ret [ <["httptestid":=VInt 7]> (<["webstepid":=VInt 102]> ex_new_b);
          <["httptestid":=VInt 7]> ex_new_c ].
Proof. vm_compute. reflexivity. Qed.

Lemma get_replace_steps_reconciles_witness :
  ∃ out,
    get_replace_steps (VList (VDict <$> [ex_old_a; ex_old_b])) [ex_new_b; ex_new_c] (VInt 7)
    = Ret out ∧ length out = 2%nat.
Proof.
  destruct (get_replace_steps_reconciles [ex_old_a; ex_old_b] [ex_new_b; ex_new_c] (VInt 7))
    as (out & H1 & _ & H2 & _).
  - repeat constructor; vm_compute; eexists; reflexivity.
  - repeat constructor; vm_compute; try reflexivity; eexists; reflexivity.
  - exists out. split; [exact H1|exact H2].
Defined.

Definition ex_remote_steps : dict :=
  <["101":=VDict ex_old_a]> (<["102":=VDict ex_old_b]> ∅).

Definition ex_desired_raw : value :=
  VList [ VDict (<["name":=VStr "sb"]> (<["url":=VStr "http://b"]> (<["number":=VInt 1]> ∅)));
          VDict (<["name":=VStr "sc"]> (<["url":=VStr "http://c"]> (<["number":=VInt 2]> ∅))) ].

Definition ex_web_check_obj (steps : value) : dict :=
  <["httptestid":=VInt 7]> (<["name":=VStr "wc"]> (<["steps":=steps]> ∅)).

Example get_web_check_params_mapping_ex :
  (p ← get_web_check_params (VStr "wc") (VInt 1) (VInt 2) ex_desired_raw ∅
         (VDict (ex_web_check_obj (VDict ex_remote_steps))) (VInt 7);
   mret (p !! "steps"))
  = Ret (Some (VList [ VDict (<["httptestid":=VInt 7]> (<["webstepid":=VInt 102]> ex_new_b));
                       VDict (<["httptestid":=VInt 7]> ex_new_c) ])).
Proof. vm_compute. reflexivity. Qed.


(** Two existing steps with the url of the desired step: the mapping
    and the list of the same steps both give the desired step the
    identifier of the first of them. *)
Example get_web_check_params_same_url_ex :
  let s1 : dict := <["url":=VStr "http://a"]> (<["webstepid":=VInt 1]> ∅) in
  let s3 : dict := <["url":=VStr "http://a"]> (<["webstepid":=VInt 3]> ∅) in
  let params_for (existing : value) :=
    get_web_check_params (VStr "wc") (VInt 1) (VInt 2) (VList [VDict ex_entry1]) ∅
      (VDict (ex_web_check_obj existing)) (VInt 7) in
  params_for (VDict (<["1":=VDict s1]> (<["3":=VDict s3]> ∅)))
  = params_for (VList [VDict s1; VDict s3])
  ∧ (p ← params_for (VList [VDict s1; VDict s3]); mret (p !! "steps"))
    = Ret (Some (VList [ VDict (<["httptestid":=VInt 7]> (<["webstepid":=VInt 1]>
                           (<["name":=VStr "s1"]> (<["url":=VStr "http://a"]>
                            (<["no":=VInt 1]> (<["required":=VInt 0]> ∅))))) ) ])).
Proof. vm_compute. split; reflexivity. Qed.

Lemma get_web_check_params_no_old_steps_witness :
  ∃ steps,
    get_web_check_params (VStr "wc") (VInt 1) (VInt 2) (VList (VDict <$> [ex_entry1])) ∅
      (VDict (ex_web_check_obj (VList []))) (VInt 7)
    = Ret (update_params_without_old_steps (VStr "wc") (VInt 1) (VInt 2) (VInt 7) ∅ steps)
    ∧ ∀ s, s ∈ steps → s !! "webstepid" = None ∧ s !! "httptestid" = None.
Proof.
  eexists.
  destruct (get_web_check_params_no_old_steps (VStr "wc") (VInt 1) (VInt 2) [ex_entry1] ∅
              (ex_web_check_obj (VList [])) (VList []) (VInt 7) _
              eq_refl eq_refl eq_refl get_steps_ex1) as (H1 & _ & H2).
  split; [exact H1|exact H2].
Defined.

(** The claim C6 as worded fails: with an existing web check without
    steps, the outgoing step does not carry the parent identifier. *)
Lemma get_web_check_params_no_old_steps_counterexample :
  ¬ (∀ (p : dict) (steps : list value) (s : dict),
       get_web_check_params (VStr "wc") (VInt 1) (VInt 2) (VList [VDict ex_entry1]) ∅
         (VDict (ex_web_check_obj (VList []))) (VInt 7) = Ret p →
       p !! "steps" = Some (VList steps) → VDict s ∈ steps →
       s !! "httptestid" = Some (VInt 7) ∧ s !! "webstepid" = None).
Proof.
  intros H.
  destruct (H (update_params_without_old_steps (VStr "wc") (VInt 1) (VInt 2) (VInt 7) ∅
                 [ <["name":=VStr "s1"]> (<["url":=VStr "http://a"]> (<["no":=VInt 1]>
                   (<["required":=VInt 0]> ∅))) ])
              [ VDict (<["name":=VStr "s1"]> (<["url":=VStr "http://a"]> (<["no":=VInt 1]>
                   (<["required":=VInt 0]> ∅))) ) ]
              (<["name":=VStr "s1"]> (<["url":=VStr "http://a"]> (<["no":=VInt 1]>
                   (<["required":=VInt 0]> ∅))))) as [Hp _].
  - vm_compute. reflexivity.
  - vm_compute. reflexivity.
  - apply list_elem_of_singleton. reflexivity.
  - vm_compute in Hp. discriminate.
Qed.

(** ** An in-memory double of the Zabbix server

    The theorems about runs hold for every remote client.  This double
    only serves to run the module on concrete remote states: it keeps the
    hosts, applications and web checks as lists of records and hands out
    fresh identifiers from a counter. *)
Module MemServer.

Record world := World {
  hosts : list dict;
  applications : list dict;
  webchecks : list dict;
  next_id : Z
}.

Definition field (v : value) (k : string) : value :=
  match v with
  | VDict d => default VNone (d !! k)
  | _ => VNone
  end.

Definition has (k : string) (x : value) (d : dict) : bool :=
  Py.eq (default VNone (d !! k)) x.

(** A step keeps the remote identifier it comes with and gets a fresh
    one otherwise. *)
Fixpoint store_steps (httptestid : value) (next : Z) (steps : list value)
  : list value * Z :=
  match steps with
  | [] => ([], next)
  | VDict s :: rest =>
      match s !! "webstepid" with
      | Some _ =>
          let '(out, n) := store_steps httptestid next rest in
          (VDict (<["httptestid":=httptestid]> s) :: out, n)
      | None =>
          let '(out, n) := store_steps httptestid (next + 1) rest in
          (VDict (<["httptestid":=httptestid]> (<["webstepid":=VInt next]> s)) :: out, n)
      end
  | _ :: rest => store_steps httptestid next rest
  end.

Definition steps_of (arg : value) : list value :=
  match field arg "steps" with
  | VList l => l
  | _ => []
  end.

Definition zapi (m : method) (arg : value) (w : world) : reply * world :=
  match m with
  | user_login => (Returns (VStr "session"), w)
  | host_get =>
      (Returns (VList (VDict <$>
         List.filter (has "host" (field (field arg "filter") "host")) (hosts w))), w)
  | application_get =>
      (Returns (VList (VDict <$>
         List.filter (fun a => has "hostid" (field (field arg "filter") "hostid") a
                               && has "name" (field (field arg "filter") "name") a)
                     (applications w))), w)
  | application_create =>
      let id := VInt (next_id w) in
      (Returns (VDict (<["applicationids":=VList [id]]> ∅)),
       World (hosts w)
             (applications w ++
                [<["applicationid":=id]> (<["hostid":=field arg "hostid"]>
                 (<["name":=field arg "name"]> ∅))])
             (webchecks w) (next_id w + 1))
  | webcheck_get =>
      (Returns (VList (VDict <$>
         List.filter (fun c => has "name" (field (field arg "filter") "name") c
                               && Py.eq (VList [default VNone (c !! "hostid")])
                                        (field arg "hostids"))
                     (webchecks w))), w)
  | webcheck_create =>
      match arg with
      | VDict d =>
          let id := VInt (next_id w) in
          let '(steps, n) := store_steps id (next_id w + 1) (steps_of arg) in
          (Returns (VDict (<["httptestids":=VList [id]]> ∅)),
           World (hosts w) (applications w)
                 (webchecks w ++ [<["httptestid":=id]> (<["steps":=VList steps]> d)]) n)
      | _ => (Throws (VStr "Invalid params."), w)
      end
  | webcheck_update =>
      match arg with
      | VDict d =>
          let id := field arg "httptestid" in
          if existsb (has "httptestid" id) (webchecks w) then
            let '(steps, n) := store_steps id (next_id w) (steps_of arg) in
            (Returns (VDict (<["httptestids":=VList [id]]> ∅)),
             World (hosts w) (applications w)
                   (List.filter (fun c => negb (has "httptestid" id c)) (webchecks w)
                      ++ [<["steps":=VList steps]> d]) n)
          else (Throws (VStr "No permissions to referred object or it does not exist!"), w)
      | _ => (Throws (VStr "Invalid params."), w)
      end
  | webcheck_delete =>
      match arg with
      | VList [id] =>
          (Returns (VDict (<["httptestids":=VList [id]]> ∅)),
           World (hosts w) (applications w)
                 (List.filter (fun c => negb (has "httptestid" id c)) (webchecks w))
                 (next_id w))
      | _ => (Throws (VStr "Invalid params."), w)
      end
  end.

(** A remote system with one host and nothing else. *)
Definition one_host : world :=
  World [<["hostid":=VInt 10]> (<["host":=VStr "web01"]> ∅)] [] [] 100.

End MemServer.

(** The parameters of the examples. *)
Definition ex_web_check (web_check_name : value) : dict :=
  <["web_check_name":=web_check_name]> (<["host_name":=VStr "web01"]>
  (<["application_name":=VStr "shop"]> (<["steps":=ex_desired_raw]> ∅))).

Definition ex_params (state : string) (web_check_name : value) : params :=
  Params (VStr "http://monitor.example.com") (VStr "username") (VStr "password")
         (VStr state) (VInt 10) (VDict (ex_web_check web_check_name)).

Definition ex_run (check_mode : bool) (p : params) (w : MemServer.world)
  : outcome unit * machine :=
  run MemServer.zapi check_mode true p w.

Definition methods_of (s : machine (W:=MemServer.world)) : list method := (calls s).*1.

Example ex_first_run :
  let r := ex_run false (ex_params "present" (VStr "wc")) MemServer.one_host in
  (∃ t, r.1 = Exit (exit_report true (Some ("result", t))))
  ∧ methods_of r.2 = [user_login; host_get; webcheck_get; host_get; application_get;
                      application_create; webcheck_create].
Proof. vm_compute. split; [eexists|]; reflexivity. Qed.

Example ex_second_run :
  let r1 := ex_run false (ex_params "present" (VStr "wc")) MemServer.one_host in
  let r2 := ex_run false (ex_params "present" (VStr "wc")) (remote r1.2) in
  (∃ t, r2.1 = Exit (exit_report true (Some ("result", t))))
  ∧ methods_of r2.2 = [user_login; host_get; webcheck_get; host_get; application_get;
                       webcheck_update].
Proof. vm_compute. split; [eexists|]; reflexivity. Qed.

Lemma check_mode_short_circuit_witness :
  (ex_run true (ex_params "present" (VStr "wc")) MemServer.one_host).1
  = Exit changed_report
  ∧ ∃ cs, calls (ex_run true (ex_params "present" (VStr "wc")) MemServer.one_host).2
          = [] ++ cs
          ∧ Forall (λ c : call, mutating c.1 = false) cs.
Proof.
  split.
  - vm_compute. reflexivity.
  - apply (proj1 (proj2 (proj2 (proj2 (proj2
             (check_mode_short_circuit MemServer.zapi true)))))).
Defined.

(** The steps the double holds for its web checks. *)
Definition stored_steps (w : MemServer.world) : list (option value) :=
  (λ c : dict, c !! "steps") <$> MemServer.webchecks w.


Example ex_stored_steps_unchanged :
  let run1 := ex_run false (ex_params "present" (VStr "wc")) MemServer.one_host in
  let run2 := ex_run false (ex_params "present" (VStr "wc")) (remote run1.2) in
  stored_steps (remote run1.2) = stored_steps (remote run2.2).
Proof. vm_compute. reflexivity. Qed.

Lemma absent_on_absent_noop_witness :
  (ex_run false (ex_params "absent" (VStr "wc")) MemServer.one_host).1
  = Exit (does_not_exist_report (VStr "wc"))
  ∧ methods_of (ex_run false (ex_params "absent" (VStr "wc")) MemServer.one_host).2
    = [user_login; host_get; webcheck_get].
Proof.
  destruct (absent_on_absent_noop MemServer.zapi false (ex_params "absent" (VStr "wc"))
              (ex_web_check (VStr "wc")) (VStr "wc") (VStr "web01")
              (Machine MemServer.one_host []) (VStr "session")
              (<["hostid":=VInt 10]> (<["host":=VStr "web01"]> ∅)) [] (VInt 10)
              MemServer.one_host MemServer.one_host MemServer.one_host)
    as [Hrun _].
  - reflexivity.
  - reflexivity.
  - reflexivity.
  - reflexivity.
  - reflexivity.
  - reflexivity.
  - vm_compute. reflexivity.
  - reflexivity.
  - vm_compute. reflexivity.
  - unfold ex_run, run. rewrite Hrun. split; reflexivity.
Defined.

Lemma application_resolution_creates_once_witness :
  get_application_id MemServer.zapi false (VInt 10) (VStr "shop")
    (Machine MemServer.one_host [])
  = (Ret (VInt 100),
     Machine (MemServer.zapi application_create
                (application_create_params (VInt 10) (VStr "shop")) MemServer.one_host).2
       ([] ++ [(application_get, application_get_params (VInt 10) (VStr "shop"));
               (application_create, application_create_params (VInt 10) (VStr "shop"))])).
Proof.
  destruct (proj1 (application_resolution_creates_once MemServer.zapi)
              (VInt 10) (VStr "shop") (Machine MemServer.one_host []) (VList [])
              MemServer.one_host) as [_ Hid].
  - vm_compute. reflexivity.
  - reflexivity.
  - apply (Hid (<["applicationids":=VList [VInt 100]]> ∅) (VInt 100) []).
    + vm_compute. reflexivity.
    + reflexivity.
Defined.

(** The claim C5 as worded fails in check mode: the lookup returns no
    match and no application create call is issued. *)
Lemma application_resolution_counterexample :
  let r := get_application_id MemServer.zapi true (VInt 10) (VStr "shop")
             (Machine MemServer.one_host []) in
  MemServer.zapi application_get (application_get_params (VInt 10) (VStr "shop"))
    MemServer.one_host = (Returns (VList []), MemServer.one_host)
  ∧ r.1 = Exit changed_report
  ∧ ¬ (∃ arg, (application_create, arg) ∈ calls r.2).
Proof.
  split_and!.
  - vm_compute. reflexivity.
  - vm_compute. reflexivity.
  - intros [arg Hin]. vm_compute in Hin.
    apply list_elem_of_singleton in Hin. discriminate.
Qed.

(** C9 at its failing input: a [web_check_name] that is present but empty
    is not rejected.  The run logs in, looks the host up, asks the remote
    system for the web check with the empty name, and reports that this
    web check does not exist. *)
Theorem empty_web_check_name_accepted :
  let r := ex_run false (ex_params "absent" (VStr "")) MemServer.one_host in
  r.1 = Exit (does_not_exist_report (VStr ""))
  ∧ calls r.2 = [(user_login, login_args (ex_params "absent" (VStr "")));
                 (host_get, host_get_params (VStr "web01"));
                 (webcheck_get, webcheck_get_params (VStr "") (VInt 10))]
  ∧ r.1 ≠ Exit (fail_report (Text Web_check_name_required [])).
Proof.
  split_and!.
  - vm_compute. reflexivity.
  - vm_compute. reflexivity.
  - vm_compute. discriminate.
Qed.

Example ex_missing_web_check_name :
  run MemServer.zapi false true
    (Params (VStr "http://monitor.example.com") (VStr "username") (VStr "password")
            (VStr "present") (VInt 10) (VDict (<["host_name":=VStr "web01"]> ∅)))
    MemServer.one_host
  = (Exit (fail_report (Text Web_check_name_required [])), Machine MemServer.one_host []).
Proof. by apply main_web_check_name_missing with (d := <["host_name":=VStr "web01"]> ∅). Qed.

Lemma get_host_id_outcomes_witness :
  get_host_id MemServer.zapi (VStr "web01") (Machine MemServer.one_host [])
  = (Ret (VInt 10),
     Machine MemServer.one_host ([] ++ [(host_get, host_get_params (VStr "web01"))]))
  ∧ get_host_id MemServer.zapi (VStr "nohost") (Machine MemServer.one_host [])
    = (Exit (fail_report (Text Host_not_found [FVal (VStr "nohost")])),
       Machine MemServer.one_host ([] ++ [(host_get, host_get_params (VStr "nohost"))])).
Proof.
  split.
  - apply (proj1 (proj2 (get_host_id_outcomes MemServer.zapi (VStr "web01")
                           (Machine MemServer.one_host [])))
             (<["hostid":=VInt 10]> (<["host":=VStr "web01"]> ∅)) []).
    + vm_compute. reflexivity.
    + reflexivity.
  - apply (proj1 (get_host_id_outcomes MemServer.zapi (VStr "nohost")
                    (Machine MemServer.one_host [])) (VList [])).
    + vm_compute. reflexivity.
    + reflexivity.
Defined.

Lemma get_web_check_outcomes_witness :
  get_web_check MemServer.zapi (VStr "wc") (VInt 10) (Machine MemServer.one_host [])
  = (Ret VNone,
     Machine MemServer.one_host
       ([] ++ [(webcheck_get, webcheck_get_params (VStr "wc") (VInt 10))])).
Proof.
  apply (proj1 (get_web_check_outcomes MemServer.zapi (VStr "wc") (VInt 10)
                  (Machine MemServer.one_host [])) (VList [])).
  - vm_compute. reflexivity.
  - reflexivity.
Defined.

Definition ex_world_with_app : MemServer.world :=
  (MemServer.zapi application_create
     (application_create_params (VInt 10) (VStr "shop")) MemServer.one_host).2.

Lemma get_application_id_existing_witness :
  get_application_id MemServer.zapi false (VInt 10) (VStr "shop")
    (Machine ex_world_with_app [])
  = (Ret (VInt 100),
     Machine ex_world_with_app
       ([] ++ [(application_get, application_get_params (VInt 10) (VStr "shop"))])).
Proof.
  apply (get_application_id_existing MemServer.zapi false (VInt 10) (VStr "shop")
           (Machine ex_world_with_app [])
           (<["applicationid":=VInt 100]> (<["hostid":=VInt 10]>
            (<["name":=VStr "shop"]> ∅))) []).
  - vm_compute. reflexivity.
  - reflexivity.
Defined.

(** A client that finds no application and raises on every other call. *)
Definition failing_zapi (m : method) (arg : value) (w : unit) : reply * unit :=
  match m with
  | application_get => (Returns (VList []), w)
  | _ => (Throws (VStr "Application already exists"), w)
  end.

Lemma get_application_id_creation_edge_witness :
  get_application_id failing_zapi false (VInt 10) (VStr "shop") (Machine () [])
  = (Exit (fail_report (Text Failed_to_create_Application
             [FVal (VStr "shop"); FExn (APIError (VStr "Application already exists"))])),
     Machine ()
       ([] ++ [(application_get, application_get_params (VInt 10) (VStr "shop"));
               (application_create, application_create_params (VInt 10) (VStr "shop"))])).
Proof.
  apply (proj1 (get_application_id_creation_edge failing_zapi (VInt 10) (VStr "shop")
                  (Machine () []) (VList []) () eq_refl eq_refl)).
  reflexivity.
Defined.

Lemma invalid_steps_issue_no_call_witness :
  (create_web_check MemServer.zapi false (VStr "wc") (VInt 10) (VInt 100)
     (VList (VDict <$> [ex_entry_zero])) ∅ (Machine MemServer.one_host [])).2
  = Machine MemServer.one_host [].
Proof.
  apply (invalid_steps_issue_no_call MemServer.zapi false (VStr "wc") (VInt 10) (VInt 100)
           [ex_entry_zero] ∅ (Machine MemServer.one_host [])).
  right. left. right. right. reflexivity.
Defined.

Lemma optional_properties_whitelist_witness :
  ∃ r, optional_properties
         (VDict (<["nextcheck":=VInt 5]> (<["delay":=VInt 60]> (<["agent":=VNone]> ∅))))
         web_scenario_optional_properties_list ∅ = Ret r
       ∧ r !! "nextcheck" = None ∧ r !! "delay" = Some (VInt 60) ∧ r !! "agent" = None.
Proof.
  destruct (optional_properties_whitelist
              (<["nextcheck":=VInt 5]> (<["delay":=VInt 60]> (<["agent":=VNone]> ∅)))
              web_scenario_optional_properties_list) as (r & Hr & Hiff & Hnext).
  exists r. split; [exact Hr|]. split; [by apply Hnext|]. split.
  - apply Hiff. split; [|split; [reflexivity|discriminate]].
    unfold web_scenario_optional_properties_list. set_solver.
  - destruct (r !! "agent") as [v|] eqn:Ha; [|reflexivity].
    apply Hiff in Ha as (_ & Hv & Hne). vm_compute in Hv. congruence.
Defined.

Lemma create_web_check_outcomes_witness :
  create_web_check failing_zapi false (VStr "wc") (VInt 10) (VInt 100)
    (VList [VDict ex_entry1]) ∅ (Machine () [])
  = (Exit (fail_report (Text Failed_to_create_WebCheck
             [FVal (VStr "wc"); FExn (APIError (VStr "Application already exists"))])),
     Machine ()
       ([] ++ [(webcheck_create,
                VDict (create_params (VStr "wc") (VInt 10) (VInt 100) ∅
                  [ <["name":=VStr "s1"]> (<["url":=VStr "http://a"]> (<["no":=VInt 1]>
                    (<["required":=VInt 0]> ∅))) ]))])).
Proof.
  apply (proj2 (proj2 (create_web_check_outcomes failing_zapi (VStr "wc") (VInt 10)
                         (VInt 100) (VList [VDict ex_entry1]) ∅ _ (Machine () [])
                         get_steps_ex1))).
  reflexivity.
Defined.

Lemma update_web_check_outcomes_witness :
  update_web_check failing_zapi true
    (VDict (ex_web_check_obj (VList (VDict <$> [ex_old_a; ex_old_b]))))
    (VStr "wc") (VInt 10) (VInt 100) (VList (VDict <$> [ex_entry1])) ∅ (Machine () [])
  = (Exit (exit_report true None), Machine () []).
Proof.
  apply (proj1 (update_web_check_outcomes failing_zapi (VStr "wc") (VInt 10) (VInt 100)
                  [ex_entry1] ∅ (ex_web_check_obj (VList (VDict <$> [ex_old_a; ex_old_b])))
                  [ex_old_a; ex_old_b] (VInt 7) _ (Machine () [])
                  eq_refl eq_refl eq_refl ltac:(discriminate)
                  ltac:(repeat constructor; vm_compute; eexists; reflexivity)
                  get_steps_ex1)).
Defined.

Lemma delete_web_check_outcomes_witness :
  delete_web_check failing_zapi false (VDict (ex_web_check_obj VNone)) (Machine () [])
  = (Exit (fail_report (Text Failed_to_delete_WebCheck
             [FVal (VStr "wc"); FExn (APIError (VStr "Application already exists"))])),
     Machine () ([] ++ [(webcheck_delete, VList [VInt 7])])).
Proof.
  apply (proj2 (proj2 (proj1 (delete_web_check_outcomes failing_zapi (ex_web_check_obj VNone)
                                (Machine () []))
                         (VInt 7) (VStr "wc") eq_refl eq_refl))).
  reflexivity.
Defined.

Lemma update_web_check_malformed_steps_witness :
  update_web_check failing_zapi false (VDict (ex_web_check_obj (VStr "none")))
    (VStr "wc") (VInt 10) (VInt 100) (VList (VDict <$> [ex_entry1])) ∅ (Machine () [])
  = (Raise TypeError, Machine () []).
Proof.
  apply (update_web_check_malformed_steps failing_zapi false (VStr "wc") (VInt 10)
           (VInt 100) [ex_entry1] ∅ (ex_web_check_obj (VStr "none")) (VStr "none")
           (VInt 7) _ (Machine () [])
           eq_refl eq_refl eq_refl eq_refl eq_refl eq_refl get_steps_ex1).
Defined.

Lemma get_steps_first_failure_witness :
  get_steps (VList ((VDict <$> [ex_entry1]) ++ VDict (<["name":=VStr "s2"]> ∅) :: [VNone]))
  = Exit (fail_report (Text Step_url_required [])).
Proof.
  refine (eq_trans
            (get_steps_first_failure [ex_entry1] (<["name":=VStr "s2"]> ∅) [VNone] _ _) _).
  - repeat constructor.
  - right. left. reflexivity.
  - vm_compute. reflexivity.
Defined.

Lemma get_steps_returns_only_on_mappings_witness :
  ∃ entries, VList [VDict ex_entry1] = VList (VDict <$> entries) ∧ entries ≠ [].
Proof.
  destruct (get_steps_returns_only_on_mappings (VList [VDict ex_entry1]) _ get_steps_ex1)
    as (entries & Heq & Hne & _).
  exists entries. split; [exact Heq|exact Hne].
Defined.


(** The remote system after the first run of the example, and the record
    of its web check as the lookup returns it. *)
Definition ex_world_with_wc : MemServer.world :=
  remote (ex_run false (ex_params "present" (VStr "wc")) MemServer.one_host).2.

Definition ex_recs : list value :=
  match (MemServer.zapi webcheck_get (webcheck_get_params (VStr "wc") (VInt 10))
           ex_world_with_wc).1 with
  | Returns (VList l) => l
  | _ => []
  end.

Definition ex_host : dict := <["hostid":=VInt 10]> (<["host":=VStr "web01"]> ∅).

Lemma main_absent_deletes_witness :
  main MemServer.zapi false true (ex_params "absent" (VStr "wc"))
    (Machine ex_world_with_wc [])
  = delete_web_check MemServer.zapi false (default VNone (head ex_recs))
      (after_lookups (ex_params "absent" (VStr "wc")) (VStr "wc") (VStr "web01") (VInt 10)
         (Machine ex_world_with_wc []) ex_world_with_wc).
Proof.
  apply (main_absent_deletes MemServer.zapi false (ex_params "absent" (VStr "wc"))
           (ex_web_check (VStr "wc")) (VStr "wc") (VStr "web01")
           (Machine ex_world_with_wc []) (VStr "session") ex_host [] (VInt 10) ex_recs
           ex_world_with_wc ex_world_with_wc ex_world_with_wc).
  - reflexivity.
  - reflexivity.
  - reflexivity.
  - reflexivity.
  - reflexivity.
  - vm_compute. reflexivity.
  - reflexivity.
  - vm_compute. reflexivity.
  - reflexivity.
  - vm_compute. reflexivity.
Defined.

(** The parameters of the example without an application name. *)
Definition ex_params_without_application : params :=
  Params (VStr "http://monitor.example.com") (VStr "username") (VStr "password")
         (VStr "present") (VInt 10)
         (VDict (delete "application_name" (ex_web_check (VStr "wc")))).

Lemma main_application_name_required_witness :
  main MemServer.zapi false true ex_params_without_application
    (Machine MemServer.one_host [])
  = (Exit (fail_report (Text Application_name_required [])),
     after_lookups ex_params_without_application (VStr "wc") (VStr "web01") (VInt 10)
       (Machine MemServer.one_host []) MemServer.one_host).
Proof.
  apply (main_application_name_required MemServer.zapi false ex_params_without_application
           (delete "application_name" (ex_web_check (VStr "wc"))) (VStr "wc") (VStr "web01")
           (Machine MemServer.one_host []) (VStr "session") ex_host [] (VInt 10) []
           MemServer.one_host MemServer.one_host MemServer.one_host).
  - reflexivity.
  - vm_compute. reflexivity.
  - vm_compute. reflexivity.
  - reflexivity.
  - reflexivity.
  - vm_compute. reflexivity.
  - reflexivity.
  - vm_compute. reflexivity.
  - reflexivity.
  - vm_compute. reflexivity.
Defined.

Lemma main_present_dispatch_witness :
  ∃ optional,
    main MemServer.zapi false true (ex_params "present" (VStr "wc"))
      (Machine ex_world_with_app [])
    = create_web_check MemServer.zapi false (VStr "wc") (VInt 10) (VInt 100)
        ex_desired_raw optional
        (Machine ex_world_with_app
           [(user_login, login_args (ex_params "present" (VStr "wc")));
            (host_get, host_get_params (VStr "web01"));
            (webcheck_get, webcheck_get_params (VStr "wc") (VInt 10));
            (host_get, host_get_params (VStr "web01"));
            (application_get, application_get_params (VInt 10) (VStr "shop"))]).
Proof.
  destruct (main_present_dispatch MemServer.zapi false (ex_params "present" (VStr "wc"))
              (ex_web_check (VStr "wc")) (VStr "wc") (VStr "web01")
              (Machine ex_world_with_app []) (VStr "session") ex_host [] (VInt 10) []
              ex_world_with_app ex_world_with_app ex_world_with_app
              eq_refl eq_refl eq_refl eq_refl eq_refl
              ltac:(vm_compute; reflexivity) eq_refl ltac:(vm_compute; reflexivity)
              (VStr "shop") ex_host
              (<["applicationid":=VInt 100]> (<["hostid":=VInt 10]>
               (<["name":=VStr "shop"]> ∅))) [] [] (VInt 10) (VInt 100)
              ex_world_with_app ex_world_with_app
              eq_refl eq_refl eq_refl ltac:(vm_compute; reflexivity) eq_refl
              ltac:(vm_compute; reflexivity) eq_refl)
    as (optional & _ & Hmain).
  exists optional. exact Hmain.
Defined.

Lemma scan_old_steps_breaks_witness :
  scan_old_steps ex_new_b ((VDict <$> [ex_old_a]) ++ VDict ex_old_b :: [VNone]) (VInt 7)
  = Ret (Some (<["httptestid":=VInt 7]> (<["webstepid":=VInt 102]> ex_new_b))).
Proof.
  apply (scan_old_steps_breaks ex_new_b [ex_old_a] ex_old_b [VNone] (VInt 7)
           (VStr "http://b") (VStr "http://b")).
  - reflexivity.
  - repeat constructor. exists (VStr "http://a"). split; reflexivity.
  - reflexivity.
  - reflexivity.
Defined.







